(** * Shallow embedding of [optuna/integration/skopt.py]

    The module adapts optuna's sampler interface to scikit-optimize: the
    class [_Optimizer] turns a search space (a dict from parameter names to
    distributions) into skopt dimensions, replays the completed trials of a
    study into [skopt.Optimizer.tell], and decodes the point returned by
    [skopt.Optimizer.ask]; the class [SkoptSampler] computes the search space
    and drives [_Optimizer].

    Python floats are IEEE binary64 numbers and are embedded as Rocq's
    primitive floats; Python ints are [Z]; dicts are [gmap]s, with the order
    of [items()] a parameter; exceptions are the [Raise] branch of [result];
    the calls made on the skopt optimizer are recorded in a trace of
    [skopt.event]s that every backend-touching function threads through.
    What the module calls but does not define is a parameter of the
    embedding: the methods of the distributions, the validation that skopt's
    dimension classes make of their arguments, [product_search_space] and
    the point that the optimizer proposes. *)

From Stdlib Require Import ZArith Lia Floats String.
From stdpp Require Import base option list gmap strings sorting pretty.

(** ** Python values *)

Inductive pyvalue :=
  | PyNone
  | PyInt (z : Z)
  | PyFloat (f : float)
  | PyStr (s : string).

(** ** [optuna.distributions]: the distribution kinds

    [UnknownDistribution] stands for any other subclass of
    [BaseDistribution]; the [isinstance] cascades of the module fall through
    on it. *)

Module distributions.
Inductive distribution :=
  | UniformDistribution (low high : float)
  | LogUniformDistribution (low high : float)
  | IntUniformDistribution (low high : Z)
  | DiscreteUniformDistribution (low high q : float)
  | CategoricalDistribution (choices : list pyvalue)
  | UnknownDistribution (kind : string).
End distributions.
Export distributions.

(** ** Exceptions and the result of a computation that may raise

    The module has no [try]: an exception raised by anything it calls
    reaches its caller.  [OtherError] stands for an exception of any other
    class, which a method of a distribution or skopt's validation may
    raise. *)

Inductive exn :=
  | NotImplementedError (distribution : distribution)
  | AssertionError
  | KeyError (key : string)
  | TypeError
  | ValueError
  | IndexError
  | OverflowError
  | ZeroDivisionError
  | OtherError (class : string).

Inductive result (A : Type) :=
  | Ok (a : A)
  | Raise (e : exn).
Arguments Ok {A} a.
Arguments Raise {A} e.

Global Instance result_ret : MRet result := λ A a, Ok a.
Global Instance result_bind : MBind result := λ A B f m,
  match m with
  | Ok a => f a
  | Raise e => Raise e
  end.

Definition is_Ok {A} (r : result A) : bool :=
  match r with Ok _ => true | Raise _ => false end.

Global Instance result_Ok_true_dec (r : result bool) : Decision (r = Ok true).
Proof. destruct r as [[]|]; [left|right|right]; congruence. Defined.

(** The interface [BaseDistribution].  The module calls [to_internal_repr],
    [single] and [_contains]; [to_external_repr] is the conversion in the
    other direction.  The bodies of the methods live in
    [optuna/distributions.py]; the embedding is parametric in them.  A
    conversion or a containment test may raise on a value that does not
    suit the distribution. *)
Class BaseDistribution := {
  to_internal_repr : distribution → pyvalue → result pyvalue;
  to_external_repr : distribution → pyvalue → result pyvalue;
  single : distribution → bool;
  _contains : distribution → pyvalue → result bool
}.

(** ** Python float arithmetic

    [+], [-], [*], [/], unary [-] and the comparisons of Python floats are
    the binary64 operations, i.e. the primitives of [PrimFloat]. *)

(** The binary64 number nearest to a Python int, ties to even; an infinity
    when the int is beyond the range of the floats. *)
Definition float_of_Z (z : Z) : float :=
  SF2Prim (binary_normalize prec emax z 0 false).

(** The operand of a mixed int/float operation, coerced to float.  An int
    whose rounding is not a finite float makes the operation raise
    [OverflowError] (int too large to convert to float); an operand that is
    not a number makes it raise [TypeError]. *)
Definition as_float (v : pyvalue) : result float :=
  match v with
  | PyInt z =>
      let f := float_of_Z z in
      if is_infinity f then Raise OverflowError else Ok f
  | PyFloat f => Ok f
  | _ => Raise TypeError
  end.

Definition py_sub (a : pyvalue) (b : float) : result float :=
  x ← as_float a; mret (x - b)%float.

Definition py_mul (a : pyvalue) (b : float) : result float :=
  x ← as_float a; mret (x * b)%float.

(** The builtin [max] on two arguments returns the first one unless the
    second is greater. *)
Definition py_max (a b : float) : float :=
  if (a <? b)%float then b else a.

(** C's [fmod]: the remainder of the division truncated toward zero, which is
    exact; it has the sign of [x]. *)
Definition SF64fmod (x y : spec_float) : spec_float :=
  match x, y with
  | S754_nan, _ | _, S754_nan => S754_nan
  | S754_infinity _, _ => S754_nan
  | _, S754_zero _ => S754_nan
  | _, S754_infinity _ => x
  | S754_zero _, _ => x
  | S754_finite sx mx ex, S754_finite _ my ey =>
      let e := Z.min ex ey in
      let X := (Z.pos mx * 2 ^ (ex - e))%Z in
      let Y := (Z.pos my * 2 ^ (ey - e))%Z in
      binary_normalize prec emax (cond_Zopp sx (Z.rem X Y)) e sx
  end.

Definition c_fmod (x y : float) : float :=
  SF2Prim (SF64fmod (Prim2SF x) (Prim2SF y)).

(** C's [floor]. *)
Definition SF64floor (x : spec_float) : spec_float :=
  match x with
  | S754_finite s m e =>
      if (0 <=? e)%Z then x
      else binary_normalize prec emax (cond_Zopp s (Z.pos m) / 2 ^ (- e))%Z 0 s
  | _ => x
  end.

Definition c_floor (x : float) : float := SF2Prim (SF64floor (Prim2SF x)).

Definition c_copysign_zero (x : float) : float :=
  if get_sign x then neg_zero else zero.

(** [vx // wx] on Python floats, after CPython's [float_floor_div]. *)
Definition float_floordiv (vx wx : float) : result float :=
  if (wx =? 0)%float then Raise ZeroDivisionError
  else
    let mod_ := c_fmod vx wx in
    let div_ := ((vx - mod_) / wx)%float in
    let div_ :=
      if negb (mod_ =? 0)%float
      then if xorb (wx <? 0)%float (mod_ <? 0)%float then (div_ - 1)%float else div_
      else div_ in
    if negb (div_ =? 0)%float
    then
      let floordiv := c_floor div_ in
      Ok (if (0.5 <? div_ - floordiv)%float then (floordiv + 1)%float else floordiv)
    else Ok (c_copysign_zero (vx / wx)%float).

(** [np.nextafter(x, float('-inf'))]: the next binary64 number toward minus
    infinity. *)
Definition nextafter_neg_inf (x : float) : float := next_down x.

(** ** Dicts: [items()] and [sorted(...)]

    A [gmap] holds the entries of a dict and not the order in which
    [items()] lists them (the order of insertion, or any order before
    Python 3.7).  The embedding is parametric in that order: [items] lists
    the entries of a search space, each once.

    [sorted] compares the (name, distribution) tuples; the names of a dict
    are distinct, so the comparison is decided by the names, which Python
    orders lexicographically by code point. *)

Class DictOrder := {
  items : gmap string distribution → list (string * distribution);
  items_Permutation (d : gmap string distribution) : items d ≡ₚ map_to_list d
}.

Definition item_le {A} (x y : string * A) : Prop := String.leb x.1 y.1 = true.

Global Instance item_le_dec {A} (x y : string * A) : Decision (item_le x y).
Proof. unfold item_le. apply _. Defined.

Definition sorted {A} (l : list (string * A)) : list (string * A) :=
  merge_sort item_le l.

(** ** [optuna.structs] *)

Module structs.
Inductive TrialState := RUNNING | COMPLETE | PRUNED | FAIL.
Inductive StudyDirection := NOT_SET | MINIMIZE | MAXIMIZE.

Record FrozenTrial := {
  number : Z;
  state : TrialState;
  value : option float;
  params : gmap string pyvalue
}.

Record InTrialStudy := {
  trials : list FrozenTrial;
  direction : StudyDirection
}.
End structs.
Export structs.

Global Instance TrialState_eq_dec : EqDecision TrialState.
Proof. solve_decision. Defined.
Global Instance StudyDirection_eq_dec : EqDecision StudyDirection.
Proof. solve_decision. Defined.

(** ** The skopt backend

    [space.Real], [space.Integer] and [space.Categorical] are skopt's
    dimension classes; a dimension object is kept as the arguments it was
    built from.  The optimizer itself is opaque: the embedding records the
    calls made on it. *)

Module space.
Inductive dimension :=
  | Real (low high : float) (prior : string)
  | Integer (low high : pyvalue)
  | Categorical (categories : list pyvalue).
End space.

(** The constructors of the dimension classes validate their arguments and
    may raise.  skopt is a library outside the repository, and the embedding
    takes its validation as a parameter: [Real_check low high prior] is the
    exception, if any, that [space.Real(low, high, prior=prior)] raises,
    and likewise for the other two classes.  One check is relied upon: skopt
    cannot handle a continuous dimension that holds a single value (the
    comment in [infer_relative_search_space] says so), and [Real] raises
    [ValueError] when [high <= low]. *)
Class SkoptSpace := {
  Real_check : float → float → string → option exn;
  Integer_check : pyvalue → pyvalue → option exn;
  Categorical_check : list pyvalue → option exn;
  Real_check_bounds (low high : float) (prior : string) :
    (high <=? low)%float = true → Real_check low high prior = Some ValueError
}.

(** A constructor call: the object, unless the validation raises. *)
Definition checked {A} (check : option exn) (object : A) : result A :=
  match check with
  | Some e => Raise e
  | None => Ok object
  end.

Module skopt.
Inductive event :=
  | Optimizer (dimensions : list space.dimension) (kwargs : gmap string pyvalue)
  | tell (xs : list (list pyvalue)) (ys : list float)
  | ask.
End skopt.

(** A computation that talks to the backend: it extends the trace of calls
    and may raise. *)
Definition backend (A : Type) : Type := list skopt.event → result A * list skopt.event.

Definition backend_bind {A B} (m : backend A) (f : A → backend B) : backend B :=
  λ tr, match m tr with
        | (Ok a, tr') => f a tr'
        | (Raise e, tr') => (Raise e, tr')
        end.

Global Instance backend_mbind : MBind backend := λ A B f m, backend_bind m f.

(** A call on the backend: the call is appended to the trace. *)
Definition backend_call (e : skopt.event) : backend unit :=
  λ tr, (Ok tt, tr ++ [e]).

(** A computation that makes no call on the backend. *)
Definition backend_lift {A} (r : result A) : backend A := λ tr, (r, tr).

(** ** The module *)

Record SkoptSampler := {
  _skopt_kwargs : gmap string pyvalue;
  _warn_independent_sampling : bool
}.

Record _Optimizer := {
  _search_space : gmap string distribution
}.

Definition is_categorical (d : distribution) : bool :=
  match d with CategoricalDistribution _ => true | _ => false end.

Section skopt_py.
Context `{BaseDistribution} `{SkoptSpace} `{DictOrder}.

(** [samplers.product_search_space], defined in [optuna/samplers]. *)
Variable product_search_space : InTrialStudy → gmap string distribution.

(** The point that [skopt.Optimizer.ask] returns, given the calls made so
    far (the [ask] call included). *)
Variable skopt_ask : list skopt.event → list pyvalue.

(** [self._optimizer.ask()]: the call is recorded and the point returned. *)
Definition Optimizer_ask : backend (list pyvalue) :=
  λ tr, (Ok (skopt_ask (tr ++ [skopt.ask])), tr ++ [skopt.ask]).

(** *** [SkoptSampler.__init__]

    The availability check and the independent sampler, which
    [sample_relative] does not use, are left out. *)
Definition SkoptSampler_init (warn_independent_sampling : bool)
    (skopt_kwargs : option (gmap string pyvalue)) : SkoptSampler :=
  let kwargs := default ∅ skopt_kwargs in
  let kwargs :=
    if bool_decide (is_Some (kwargs !! "dimensions")) then delete "dimensions" kwargs
    else kwargs in
  {| _skopt_kwargs := kwargs;
     _warn_independent_sampling := warn_independent_sampling |}.

(** *** [SkoptSampler.infer_relative_search_space] *)
Fixpoint infer_loop (l : list (string * distribution))
    (search_space : gmap string distribution) : gmap string distribution :=
  match l with
  | [] => search_space
  | (name, distribution) :: l =>
      if single distribution && negb (is_categorical distribution)
      then infer_loop l search_space
      else infer_loop l (<[name := distribution]> search_space)
  end.

Definition infer_relative_search_space (self : SkoptSampler)
    (study : InTrialStudy) (trial : FrozenTrial) : gmap string distribution :=
  infer_loop (items (product_search_space study)) ∅.

(** *** [_Optimizer.__init__]

    [dimension_of] is the [isinstance] cascade of the loop body;
    [space_Real], [space_Integer] and [space_Categorical] are the calls of
    the three classes. *)
Definition space_Real (low high : float) (prior : string) : result space.dimension :=
  checked (Real_check low high prior) (space.Real low high prior).

Definition space_Integer (low high : pyvalue) : result space.dimension :=
  checked (Integer_check low high) (space.Integer low high).

Definition space_Categorical (categories : list pyvalue) : result space.dimension :=
  checked (Categorical_check categories) (space.Categorical categories).

Definition dimension_of (distribution : distribution) : result space.dimension :=
  match distribution with
  | UniformDistribution low high =>
      let high := py_max low (nextafter_neg_inf high) in
      space_Real low high "uniform"
  | LogUniformDistribution low high =>
      let high := py_max low (nextafter_neg_inf high) in
      space_Real low high "log-uniform"
  | IntUniformDistribution low high =>
      space_Integer (PyInt low) (PyInt high)
  | DiscreteUniformDistribution low high q =>
      count ← float_floordiv (high - low)%float q;
      space_Integer (PyInt 0) (PyFloat count)
  | CategoricalDistribution choices =>
      space_Categorical choices
  | UnknownDistribution _ =>
      Raise (NotImplementedError distribution)
  end.

Fixpoint init_loop (l : list (string * distribution))
    (dimensions : list space.dimension) : result (list space.dimension) :=
  match l with
  | [] => Ok dimensions
  | (name, distribution) :: l =>
      dimension ← dimension_of distribution;
      init_loop l (dimensions ++ [dimension])
  end.

Definition Optimizer_init (search_space : gmap string distribution)
    (skopt_kwargs : gmap string pyvalue) : backend _Optimizer :=
  dimensions ← backend_lift (init_loop (sorted (items search_space)) []);
  _ ← backend_call (skopt.Optimizer dimensions skopt_kwargs);
  backend_lift (Ok {| _search_space := search_space |}).

(** *** [_Optimizer._is_compatible] *)
Fixpoint is_compatible_loop (l : list (string * distribution))
    (trial : FrozenTrial) : result bool :=
  match l with
  | [] => Ok true
  | (name, distribution) :: l =>
      match params trial !! name with
      | None => Ok false
      | Some param_value =>
          param_internal_value ← to_internal_repr distribution param_value;
          contained ← _contains distribution param_internal_value;
          if negb contained then Ok false
          else is_compatible_loop l trial
      end
  end.

Definition _is_compatible (self : _Optimizer) (trial : FrozenTrial) : result bool :=
  is_compatible_loop (items (_search_space self)) trial.

(** *** [_Optimizer._complete_trial_to_skopt_observation]

    [observation_value] is the rescaling of the loop body. *)
Definition observation_value (distribution : distribution)
    (param_value : pyvalue) : result pyvalue :=
  match distribution with
  | DiscreteUniformDistribution low _ q =>
      d ← py_sub param_value low;
      r ← float_floordiv d q;
      Ok (PyFloat r)
  | _ => Ok param_value
  end.

Fixpoint observation_loop (l : list (string * distribution))
    (trial : FrozenTrial) (param_values : list pyvalue) : result (list pyvalue) :=
  match l with
  | [] => Ok param_values
  | (name, distribution) :: l =>
      param_value ← match params trial !! name with
                     | Some v => Ok v
                     | None => Raise (KeyError name)
                     end;
      param_value ← observation_value distribution param_value;
      observation_loop l trial (param_values ++ [param_value])
  end.

Definition _complete_trial_to_skopt_observation (self : _Optimizer)
    (study : InTrialStudy) (trial : FrozenTrial) : result (list pyvalue * float) :=
  param_values ← observation_loop (sorted (items (_search_space self))) trial [];
  value ← match value trial with
           | Some v => Ok v
           | None => Raise AssertionError
           end;
  let value :=
    if bool_decide (direction study = MAXIMIZE) then (- value)%float else value in
  Ok (param_values, value).

(** *** [_Optimizer.tell] *)
Fixpoint tell_loop (self : _Optimizer) (study : InTrialStudy)
    (l : list FrozenTrial) (xs : list (list pyvalue)) (ys : list float)
    : result (list (list pyvalue) * list float) :=
  match l with
  | [] => Ok (xs, ys)
  | trial :: l =>
      if bool_decide (state trial ≠ COMPLETE) then tell_loop self study l xs ys
      else
        compatible ← _is_compatible self trial;
        if negb compatible then tell_loop self study l xs ys
        else
          xy ← _complete_trial_to_skopt_observation self study trial;
          tell_loop self study l (xs ++ [xy.1]) (ys ++ [xy.2])
  end.

Definition tell (self : _Optimizer) (study : InTrialStudy) : backend unit :=
  xsys ← backend_lift (tell_loop self study (trials study) [] []);
  backend_call (skopt.tell xsys.1 xsys.2).

(** *** [_Optimizer.ask]

    [ask_value] is the rescaling of the loop body. *)
Definition ask_value (distribution : distribution) (value : pyvalue)
    : result pyvalue :=
  match distribution with
  | DiscreteUniformDistribution low _ q =>
      v ← py_mul value q;
      Ok (PyFloat (v + low)%float)
  | _ => Ok value
  end.

Fixpoint ask_loop (l : list ((string * distribution) * pyvalue))
    (params : gmap string pyvalue) : result (gmap string pyvalue) :=
  match l with
  | [] => Ok params
  | ((name, distribution), value) :: l =>
      value ← ask_value distribution value;
      internal ← to_internal_repr distribution value;
      ask_loop l (<[name := internal]> params)
  end.

Definition ask (self : _Optimizer) : backend (gmap string pyvalue) :=
  param_values ← Optimizer_ask;
  backend_lift (ask_loop (zip (sorted (items (_search_space self))) param_values) ∅).

(** *** [SkoptSampler.sample_relative] *)
Definition sample_relative (self : SkoptSampler) (study : InTrialStudy)
    (trial : FrozenTrial) (search_space : gmap string distribution)
    : backend (gmap string pyvalue) :=
  if bool_decide (size search_space = 0) then backend_lift (Ok ∅)
  else
    optimizer ← Optimizer_init search_space (_skopt_kwargs self);
    _ ← tell optimizer study;
    ask optimizer.
End skopt_py.

(** ** The distribution methods ([optuna/distributions.py]) and skopt's checks *)

(** The order of a float and a Python int, which Python decides exactly;
    [None] when the float is not a number. *)
Definition float_compare_Z (x : float) (z : Z) : option comparison :=
  match Prim2SF x with
  | S754_nan => None
  | S754_infinity s => Some (if s then Lt else Gt)
  | S754_zero _ => Some (0 ?= z)%Z
  | S754_finite s m e =>
      let n := cond_Zopp s (Z.pos m) in
      Some (if (0 <=? e)%Z then (n * 2 ^ e ?= z)%Z else (n ?= z * 2 ^ (- e))%Z)
  end.

(** The order of two values; comparing [None] with anything, or a string
    with a number, raises [TypeError]. *)
Definition py_compare (a b : pyvalue) : result (option comparison) :=
  match a, b with
  | PyInt x, PyInt y => Ok (Some (x ?= y)%Z)
  | PyFloat x, PyFloat y => Ok (SFcompare (Prim2SF x) (Prim2SF y))
  | PyFloat x, PyInt y => Ok (float_compare_Z x y)
  | PyInt x, PyFloat y => Ok (CompOpp <$> float_compare_Z y x)
  | PyStr x, PyStr y => Ok (Some (String.compare x y))
  | _, _ => Raise TypeError
  end.

Definition py_le (a b : pyvalue) : result bool :=
  c ← py_compare a b;
  Ok match c with Some Lt | Some Eq => true | _ => false end.

Definition py_lt (a b : pyvalue) : result bool :=
  c ← py_compare a b;
  Ok match c with Some Lt => true | _ => false end.

(** A chained comparison [a <= v < b]: the second comparison is made only
    when the first holds. *)
Definition py_and (first second : result bool) : result bool :=
  match first with
  | Ok true => second
  | Ok false => Ok false
  | Raise e => Raise e
  end.

(** Python's [==] on the values that occur as parameter values. *)
Definition py_eqb (a b : pyvalue) : bool :=
  match a, b with
  | PyNone, PyNone => true
  | PyInt x, PyInt y => (x =? y)%Z
  | PyInt x, PyFloat y => bool_decide (float_compare_Z y x = Some Eq)
  | PyFloat x, PyInt y => bool_decide (float_compare_Z x y = Some Eq)
  | PyFloat x, PyFloat y => (x =? y)%float
  | PyStr x, PyStr y => String.eqb x y
  | _, _ => false
  end.

(** [int(v)]: a float is truncated toward zero.  [int] raises [TypeError] on
    [None], [ValueError] on a float that is not a number and on a string
    (one that spells no integer), and [OverflowError] on an infinity. *)
Definition py_int (v : pyvalue) : result Z :=
  match v with
  | PyInt z => Ok z
  | PyFloat f =>
      match Prim2SF f with
      | S754_zero _ => Ok 0%Z
      | S754_finite s m e =>
          Ok (cond_Zopp s (if (0 <=? e)%Z then Z.pos m * 2 ^ e else Z.pos m / 2 ^ (- e)))%Z
      | S754_infinity _ => Raise OverflowError
      | S754_nan => Raise ValueError
      end
  | PyStr _ => Raise ValueError
  | PyNone => Raise TypeError
  end.

(** [choices.index(x)], which raises [ValueError] when [x] is not among the
    choices. *)
Fixpoint index_of (x : pyvalue) (choices : list pyvalue) : result nat :=
  match choices with
  | [] => Raise ValueError
  | c :: choices => if py_eqb c x then Ok 0 else i ← index_of x choices; Ok (S i)
  end.

(** [choices[i]], where a negative index counts from the end. *)
Definition py_getitem (choices : list pyvalue) (i : Z) : result pyvalue :=
  let n := Z.of_nat (length choices) in
  let j := if (i <? 0)%Z then (i + n)%Z else i in
  if (0 <=? j)%Z then
    match choices !! Z.to_nat j with
    | Some c => Ok c
    | None => Raise IndexError
    end
  else Raise IndexError.

(** Modelled from the spec: the methods of the distribution classes, which
    [optuna/distributions.py] defines and which are not part of the module.
    The spec gives each distribution [contains(internal_value)],
    [to_internal(external_value)] and [to_external(internal_value)], with
    Continuous and LogContinuous closed-open over [low, high), IntegerUniform
    an inclusive integer range, DiscreteStepped the values from [low] up to
    [high], and Categorical an ordered sequence of choices.  The internal
    representation of a categorical value is its position among the choices
    ([choices.index], which has no answer for a value that is not among
    them), that of a number is the number itself; a distribution is
    single-valued when its bounds coincide, or when it has one choice.  The
    comparisons are Python's, which raise [TypeError] on a value that is not
    a number. *)
Definition optuna_distributions : BaseDistribution := {|
  to_internal_repr d v :=
    match d with
    | CategoricalDistribution choices =>
        i ← index_of v choices; Ok (PyInt (Z.of_nat i))
    | _ => Ok v
    end;
  to_external_repr d v :=
    match d with
    | CategoricalDistribution choices => i ← py_int v; py_getitem choices i
    | _ => Ok v
    end;
  single d :=
    match d with
    | UniformDistribution low high | LogUniformDistribution low high
    | DiscreteUniformDistribution low high _ => (low =? high)%float
    | IntUniformDistribution low high => (low =? high)%Z
    | CategoricalDistribution choices => bool_decide (length choices = 1)
    | UnknownDistribution _ => false
    end;
  _contains d v :=
    match d with
    | UniformDistribution low high | LogUniformDistribution low high =>
        py_and (py_le (PyFloat low) v) (py_lt v (PyFloat high))
    | IntUniformDistribution low high =>
        py_and (py_le (PyInt low) v) (py_le v (PyInt high))
    | DiscreteUniformDistribution low high _ =>
        py_and (py_le (PyFloat low) v) (py_le v (PyFloat high))
    | CategoricalDistribution choices =>
        index ← py_int v;
        Ok ((0 <=? index)%Z && (index <? Z.of_nat (length choices))%Z)
    | UnknownDistribution _ => Ok false
    end
|}.

(** skopt's validation, as far as the examples need it: [Real] and
    [Integer] refuse an interval whose upper bound is not above its lower
    bound ([if high <= low: raise ValueError]). *)
Definition skopt_space : SkoptSpace.
Proof.
  refine {|
    Real_check low high prior :=
      if (high <=? low)%float then Some ValueError else None;
    Integer_check low high :=
      match py_le high low with
      | Ok true => Some ValueError
      | Ok false => None
      | Raise e => Some e
      end;
    Categorical_check categories := None
  |}.
  intros low high prior Hle. by rewrite Hle.
Defined.

(** An order of the items: that of the [gmap]. *)
Definition dict_order : DictOrder :=
  {| items := map_to_list; items_Permutation d := reflexivity (map_to_list d) |}.

(** The test of [infer_relative_search_space]'s loop: a distribution is kept
    unless it is single-valued and not categorical. *)
Definition kept `{BaseDistribution} (d : distribution) : bool :=
  negb (single d && negb (is_categorical d)).

(** ** Well-formed inputs

    The module relies on what optuna guarantees about its inputs: a trial in
    state [COMPLETE] has a value (the [assert] of
    [_complete_trial_to_skopt_observation]), the step [q] of a discrete
    distribution is not zero, the value recorded (or proposed by skopt) for
    a discrete parameter is a number that the float arithmetic accepts, and
    the methods of a distribution return on the values recorded for its
    parameter.  The predicates below state this; without them the module
    raises. *)

(** A float, or an int within the range of the floats. *)
Definition is_number (v : pyvalue) : bool := is_Ok (as_float v).

Definition nonzero_steps (search_space : gmap string distribution) : bool :=
  forallb (λ it : string * distribution,
             match it.2 with
             | DiscreteUniformDistribution _ _ q => negb (q =? 0)%float
             | _ => true
             end) (map_to_list search_space).

Definition well_typed_trial (search_space : gmap string distribution)
    (trial : FrozenTrial) : bool :=
  bool_decide (is_Some (value trial)) &&
  forallb (λ it : string * distribution,
             match it.2, params trial !! it.1 with
             | DiscreteUniformDistribution _ _ _, Some v => is_number v
             | _, _ => true
             end) (map_to_list search_space).

Definition well_typed_point (l : list ((string * distribution) * pyvalue)) : bool :=
  forallb (λ itv : (string * distribution) * pyvalue,
             match itv.1.2 with
             | DiscreteUniformDistribution _ _ _ => is_number itv.2
             | _ => true
             end) l.

(** The two method calls of [_is_compatible] return on whatever the trial
    recorded for a parameter of the search space. *)
Definition checks_return `{BaseDistribution}
    (search_space : gmap string distribution) (trial : FrozenTrial) : bool :=
  forallb (λ it : string * distribution,
             match params trial !! it.1 with
             | Some v =>
                 match to_internal_repr it.2 v with
                 | Ok internal => is_Ok (_contains it.2 internal)
                 | Raise _ => false
                 end
             | None => true
             end) (map_to_list search_space).

(** The trials of a study that are in state [COMPLETE]. *)
Definition complete_trials (study : InTrialStudy) : list FrozenTrial :=
  filter (λ trial, state trial = COMPLETE) (trials study).

(** [to_internal_repr] returns on every value of the point, once rescaled. *)
Definition conversions_return `{BaseDistribution}
    (l : list ((string * distribution) * pyvalue)) : bool :=
  forallb (λ itv : (string * distribution) * pyvalue,
             match ask_value itv.1.2 itv.2 with
             | Ok v => is_Ok (to_internal_repr itv.1.2 v)
             | Raise _ => true
             end) l.

(** The distributions that the cascade of [_Optimizer.__init__] knows. *)
Definition supported (d : distribution) : bool :=
  match d with
  | UnknownDistribution _ => false
  | _ => true
  end.

Definition all_supported (search_space : gmap string distribution) : bool :=
  forallb (λ it : string * distribution, supported it.2) (map_to_list search_space).


(** The trials that [tell] replays: those in state [COMPLETE] that
    [_is_compatible] accepts, in the order of the study. *)
Definition replayed `{BaseDistribution} `{DictOrder} (self : _Optimizer)
    (study : InTrialStudy) : list FrozenTrial :=
  filter (λ trial, state trial = COMPLETE ∧ _is_compatible self trial = Ok true)
    (trials study).

(** The objective handed to skopt for a recorded objective [v]. *)
Definition signed (study : InTrialStudy) (v : float) : float :=
  match direction study with
  | MAXIMIZE => (- v)%float
  | _ => v
  end.

(** ** A study to run the module on

    A search space with one categorical, one discrete and one continuous
    parameter; a study that maximizes, with a complete trial inside the
    space, a complete trial whose [x] lies outside it, and a running trial;
    a backend that proposes the same point whatever it was told. *)

Module example.
Definition search_space : gmap string distribution :=
  <["x" := UniformDistribution 0 10]>
  (<["d" := DiscreteUniformDistribution 0 10 2]>
  (<["c" := CategoricalDistribution [PyStr "a"; PyStr "b"]]> ∅)).

Definition optimizer : _Optimizer := {| _search_space := search_space |}.

Definition trial0 : FrozenTrial :=
  {| number := 0; state := COMPLETE; value := Some 5%float;
     params := <["x" := PyFloat 1]> (<["d" := PyFloat 6]> (<["c" := PyStr "b"]> ∅)) |}.

Definition trial1 : FrozenTrial :=
  {| number := 1; state := COMPLETE; value := Some 7%float;
     params := <["x" := PyFloat 15]> (<["d" := PyFloat 4]> (<["c" := PyStr "a"]> ∅)) |}.

Definition trial2 : FrozenTrial :=
  {| number := 2; state := RUNNING; value := None;
     params := <["x" := PyFloat 2]> ∅ |}.

Definition study : InTrialStudy :=
  {| trials := [trial0; trial1; trial2]; direction := MAXIMIZE |}.

Definition skopt_ask (tr : list skopt.event) : list pyvalue :=
  [PyStr "b"; PyInt 2; PyFloat 2.5].

(** The scenario of the discrete parameter: [low = 0], [high = 10],
    [q = 2]; the trial recorded 6 and the backend proposes 2. *)
Definition discrete_space : gmap string distribution :=
  {["d" := DiscreteUniformDistribution 0 10 2]}.

Definition discrete_trial : FrozenTrial :=
  {| number := 0; state := COMPLETE; value := Some 1%float;
     params := {["d" := PyFloat 6]} |}.

(** A categorical parameter whose choices are numbers, and a backend that
    proposes the choice [1]. *)
Definition categorical_space : gmap string distribution :=
  {["c" := CategoricalDistribution [PyInt 1; PyInt 2; PyInt 0]]}.

Definition categorical_ask (tr : list skopt.event) : list pyvalue := [PyInt 1].

(** A search space with a distribution of an unsupported kind. *)
Definition unsupported_space : gmap string distribution :=
  <["u" := UnknownDistribution "NormalDistribution"]> search_space.

(** A complete trial that recorded, for the categorical parameter, a choice
    that the search space does not offer: it ran against another search
    space.  A study that holds it after a compatible trial, and a study
    that holds nothing else. *)
Definition stale_trial : FrozenTrial :=
  {| number := 3; state := COMPLETE; value := Some 3%float;
     params := <["x" := PyFloat 1]> (<["d" := PyFloat 6]> (<["c" := PyStr "z"]> ∅)) |}.

Definition stale_study : InTrialStudy :=
  {| trials := [trial0; stale_trial]; direction := MINIMIZE |}.


End example.

(** ** The proposal as the specification words it

    The specification has [propose] decode each positional value of the
    backend's point with the distribution's internal-to-external conversion,
    after the discrete rescale.  [propose_external] is that reading;
    [_Optimizer.ask] is the code. *)
Definition propose_external `{BaseDistribution} `{DictOrder} (self : _Optimizer)
    (point : list pyvalue) : result (gmap string pyvalue) :=
  foldl (λ (acc : result (gmap string pyvalue)) (itv : (string * distribution) * pyvalue),
           params ← acc;
           value ← ask_value itv.1.2 itv.2;
           external ← to_external_repr itv.1.2 value;
           Ok (<[itv.1.1 := external]> params))
    (Ok ∅) (zip (sorted (items (_search_space self))) point).

(** ** The predecessor of a binary64 number, in closed form

    [SF64pred] is defined through a rounded subtraction or addition of one
    unit in the last place; on the valid binary64 numbers it is the function
    below, which steps the mantissa and borrows from, or carries into, the
    exponent. *)

Definition pred_pos_explicit (m : positive) (e : Z) : spec_float :=
  if (m =? 1)%positive then S754_zero false
  else if (m =? 4503599627370496)%positive && (-1074 <? e)%Z
       then S754_finite false 9007199254740991 (e - 1)
       else S754_finite false (m - 1) e.

Definition succ_pos_explicit (m : positive) (e : Z) : spec_float :=
  if (m =? 9007199254740991)%positive
  then if (e <? 971)%Z then S754_finite false 4503599627370496 (e + 1)
       else S754_infinity false
  else S754_finite false (m + 1) e.

Definition pred_explicit (x : spec_float) : spec_float :=
  match x with
  | S754_zero _ => S754_finite true 1 (-1074)
  | S754_infinity false => S754_finite false 9007199254740991 971
  | S754_infinity true => x
  | S754_nan => x
  | S754_finite false m e => pred_pos_explicit m e
  | S754_finite true m e => SFopp (succ_pos_explicit m e)
  end.

(** ** [SkoptSampler.sample_independent]

    [self._independent_sampler.sample_independent] is a method of
    [optuna.samplers]; the embedding takes it as a parameter.  The logger is
    the list of the warnings emitted so far; [str.format] prints the name as
    it is and the number of the trial in decimal. *)

Definition warning_message (param_name : string) (number : Z) : string :=
  "The parameter '" +:+ param_name +:+ "' in trial#" +:+ pretty number +:+
  " is sampled by using an independent sampler, not `skopt.Optimizer`.".

Definition sample_independent
    (independent_sample : InTrialStudy → FrozenTrial → string → distribution → float)
    (self : SkoptSampler) (study : InTrialStudy) (trial : FrozenTrial)
    (param_name : string) (param_distribution : distribution)
    (logger : list string) : float * list string :=
  let logger :=
    if _warn_independent_sampling self then
      let complete_trials := filter (λ t, state t = COMPLETE) (trials study) in
      if bool_decide (1 ≤ length complete_trials)
      then logger ++ [warning_message param_name (number trial)]
      else logger
    else logger in
  (independent_sample study trial param_name param_distribution, logger).

(** ** More vocabulary for the properties *)

Definition is_discrete (d : distribution) : bool :=
  match d with
  | DiscreteUniformDistribution _ _ _ => true
  | _ => false
  end.

(** A trial with one more recorded parameter. *)
Definition with_param (trial : FrozenTrial) (name : string) (v : pyvalue)
    : FrozenTrial :=
  {| number := number trial; state := state trial; value := value trial;
     params := <[name := v]> (params trial) |}.

(** More inputs to run the module on: a complete trial inside the example
    search space that has no value, a study that holds it, a history
    intersection whose only distribution is a single-valued integer range,
    and a search space with a single-valued continuous distribution. *)
Module example_more.
Definition trial_without_value : FrozenTrial :=
  {| number := 3; state := COMPLETE; value := None;
     params := <["x" := PyFloat 1]> (<["d" := PyFloat 6]> (<["c" := PyStr "b"]> ∅)) |}.

Definition broken_study : InTrialStudy :=
  {| trials := [example.trial0; trial_without_value]; direction := MINIMIZE |}.

Definition single_valued (study : InTrialStudy) : gmap string distribution :=
  {["n" := IntUniformDistribution 3 3]}.

(** A search space that holds a single-valued continuous distribution. *)
Definition degenerate_space : gmap string distribution :=
  <["y" := UniformDistribution 1 1]> example.search_space.

Definition independent_sample (study : InTrialStudy) (trial : FrozenTrial)
    (param_name : string) (param_distribution : distribution) : float := 0%float.
End example_more.


(** * Properties *)

(** ** The order of [sorted] *)

Lemma ascii_compare_refl (a : Ascii.ascii) : Ascii.compare a a = Eq.
Proof. unfold Ascii.compare. apply N.compare_refl. Qed.

Lemma string_compare_refl (s : string) : String.compare s s = Eq.
Proof. induction s as [|a s IH]; simpl; [done|]. by rewrite ascii_compare_refl. Qed.

Lemma string_compare_lt_trans (a b c : string) :
  String.compare a b = Lt → String.compare b c = Lt → String.compare a c = Lt.
Proof.
  revert b c. induction a as [|x a IH]; intros [|y b] [|z c]; simpl; try done.
  unfold Ascii.compare.
  destruct (N.compare_spec (Ascii.N_of_ascii x) (Ascii.N_of_ascii y)) as [Hxy|Hxy|Hxy];
    destruct (N.compare_spec (Ascii.N_of_ascii y) (Ascii.N_of_ascii z)) as [Hyz|Hyz|Hyz];
    try done; intros H1 H2.
  - rewrite Hxy, Hyz, N.compare_refl. eauto.
  - rewrite Hxy. by apply N.compare_lt_iff in Hyz as ->.
  - rewrite <- Hyz. by apply N.compare_lt_iff in Hxy as ->.
  - assert (Ascii.N_of_ascii x < Ascii.N_of_ascii z)%N as Hxz by lia.
    by apply N.compare_lt_iff in Hxz as ->.
Qed.

Lemma string_leb_iff (a b : string) :
  String.leb a b = true ↔ String.compare a b = Lt ∨ a = b.
Proof.
  unfold String.leb. split.
  - destruct (String.compare a b) eqn:E; try done; intros _.
    + right. by apply String.compare_eq_iff.
    + by left.
  - intros [->| ->]; [done|]. by rewrite string_compare_refl.
Qed.

Lemma string_ltb_iff (a b : string) :
  String.ltb a b = true ↔ String.compare a b = Lt.
Proof. unfold String.ltb. by destruct (String.compare a b). Qed.

Lemma string_leb_trans (a b c : string) :
  String.leb a b = true → String.leb b c = true → String.leb a c = true.
Proof.
  rewrite !string_leb_iff. intros [H1| ->] [H2| ->]; eauto using string_compare_lt_trans.
Qed.

Lemma item_le_total {A} : Total (@item_le A).
Proof. intros x y. unfold item_le. apply String.leb_total. Qed.

Lemma item_le_trans {A} : Transitive (@item_le A).
Proof. intros x y z. unfold item_le. apply string_leb_trans. Qed.

Lemma sorted_Permutation {A} (l : list (string * A)) : sorted l ≡ₚ l.
Proof. apply merge_sort_Permutation. Qed.

Lemma sorted_StronglySorted {A} (l : list (string * A)) :
  StronglySorted item_le (sorted l).
Proof.
  apply (@StronglySorted_merge_sort _ item_le _ item_le_trans item_le_total).
Qed.

Section dict_order.
Context `{DictOrder}.
Implicit Types (m : gmap string distribution) (d : distribution).

Lemma elem_of_items m (name : string) d :
  (name, d) ∈ items m ↔ m !! name = Some d.
Proof. by rewrite items_Permutation, elem_of_map_to_list. Qed.

Lemma NoDup_fst_items m : NoDup (items m).*1.
Proof. rewrite items_Permutation. apply NoDup_fst_map_to_list. Qed.

Lemma elem_of_sorted_items m (name : string) d :
  (name, d) ∈ sorted (items m) ↔ m !! name = Some d.
Proof. by rewrite sorted_Permutation, elem_of_items. Qed.

Lemma NoDup_fst_sorted_items m : NoDup (sorted (items m)).*1.
Proof. rewrite sorted_Permutation. apply NoDup_fst_items. Qed.

Lemma length_sorted_items m : length (sorted (items m)) = size m.
Proof. by rewrite sorted_Permutation, items_Permutation, length_map_to_list. Qed.

(** A test that holds of every entry of a dict holds of every sorted item. *)
Lemma forallb_sorted_items (f : string * distribution → bool) m (it : string * distribution) :
  forallb f (map_to_list m) = true → it ∈ sorted (items m) → f it = true.
Proof.
  rewrite forallb_forall. intros Hall Hin. apply Hall, list_elem_of_In.
  by rewrite <- (items_Permutation m), <- (sorted_Permutation (items m)).
Qed.

(** The names of the sorted items increase strictly. *)
Lemma sorted_items_increasing m :
  StronglySorted (λ a b, String.ltb a b = true) (sorted (items m)).*1.
Proof.
  pose proof (NoDup_fst_sorted_items m) as Hnd.
  pose proof (sorted_StronglySorted (items m)) as Hs.
  induction Hs as [|x l Hs IH Hall]; simpl in *; [constructor|].
  apply NoDup_cons in Hnd as [Hx Hnd]. constructor; [by apply IH|].
  apply Forall_fmap, Forall_forall. intros y Hy.
  rewrite Forall_forall in Hall. specialize (Hall y Hy).
  unfold item_le in Hall. apply string_leb_iff in Hall as [Hlt|Heq].
  - by apply string_ltb_iff.
  - destruct Hx. rewrite Heq. by apply list_elem_of_fmap_2.
Qed.
End dict_order.

(** ** The result monad *)

Lemma result_bind_Ok {A B} (m : result A) (f : A → result B) (b : B) :
  m ≫= f = Ok b ↔ ∃ a, m = Ok a ∧ f a = Ok b.
Proof.
  destruct m as [a|e]; simpl; split.
  - intros Hf. by exists a.
  - by intros (a' & [= <-] & Hf).
  - done.
  - by intros (? & ? & ?).
Qed.

Lemma result_bind_Raise {A B} (m : result A) (f : A → result B) (e : exn) :
  m ≫= f = Raise e ↔ m = Raise e ∨ ∃ a, m = Ok a ∧ f a = Raise e.
Proof.
  destruct m as [a|e']; simpl; split.
  - intros Hf. right. by exists a.
  - by intros [?|(a' & [= <-] & Hf)].
  - intros [= ->]. by left.
  - intros [?|(? & ? & ?)]; congruence.
Qed.

(** ** [infer_relative_search_space] *)

Section infer.
Context `{BaseDistribution}.

Lemma kept_iff (d : distribution) :
  kept d = true ↔ is_categorical d = true ∨ single d = false.
Proof.
  unfold kept. destruct (single d), (is_categorical d); simpl; intuition congruence.
Qed.

Lemma infer_loop_lookup (l : list (string * distribution))
    (acc : gmap string distribution) (name : string) (d : distribution) :
  NoDup l.*1 →
  infer_loop l acc !! name = Some d ↔
    ((name, d) ∈ l ∧ kept d = true) ∨
    (acc !! name = Some d ∧ ∀ d', (name, d') ∈ l → kept d' = false).
Proof.
  revert acc. induction l as [|[n dn] l IH]; intros acc Hnd; simpl.
  - split; [intros ?; right; split; [done|]; by intros ? ?%elem_of_nil|].
    intros [[?%elem_of_nil _]|[? _]]; done.
  - apply NoDup_cons in Hnd as [Hn Hnd]. simpl in Hn.
    assert (∀ d', (n, d') ∉ l) as Hnl.
    { intros d' Hin. apply Hn. by apply (list_elem_of_fmap_2 fst) in Hin. }
    fold (kept dn). unfold kept at 1. destruct (single dn && negb (is_categorical dn)) eqn:E.
    + rewrite IH by done. split.
      * intros [[Hin Hk]|[Hacc Hall]].
        -- left. split; [by right|done].
        -- right. split; [done|]. intros d' [[= -> ->]|Hin]%elem_of_cons; [|by eauto].
           unfold kept. by rewrite E.
      * intros [[[[= -> ->]|Hin]%elem_of_cons Hk]|[Hacc Hall]].
        -- unfold kept in Hk. by rewrite E in Hk.
        -- by left.
        -- right. split; [done|]. intros d' Hin. apply Hall. by right.
    + rewrite IH by done. split.
      * intros [[Hin Hk]|[Hacc Hall]].
        -- left. split; [by right|done].
        -- destruct (decide (n = name)) as [->|Hne].
           ++ rewrite lookup_insert_eq in Hacc. injection Hacc as ->.
              left. split; [by left|]. unfold kept. by rewrite E.
           ++ rewrite lookup_insert_ne in Hacc by done.
              right. split; [done|].
              intros d' [[= -> ->]|Hin]%elem_of_cons; [done|by eauto].
      * intros [[[[= -> ->]|Hin]%elem_of_cons Hk]|[Hacc Hall]].
        -- right. rewrite lookup_insert_eq. split; [done|].
           intros d' Hin. by destruct (Hnl d').
        -- by left.
        -- destruct (decide (n = name)) as [->|Hne].
           ++ specialize (Hall dn (list_elem_of_here _ _)).
              unfold kept in Hall. by rewrite E in Hall.
           ++ right. rewrite lookup_insert_ne by done. split; [done|].
              intros d' Hin. apply Hall. by right.
Qed.
End infer.

(** C7: the search space returned by [infer_relative_search_space] holds
    exactly the entries of [product_search_space study] whose distribution is
    categorical or not single-valued: a single-valued distribution that is
    not categorical is dropped, a single-valued categorical one is kept. *)
Theorem infer_relative_search_space_spec `{BaseDistribution} `{DictOrder}
    (product_search_space : InTrialStudy → gmap string distribution)
    (self : SkoptSampler) (study : InTrialStudy) (trial : FrozenTrial)
    (name : string) (d : distribution) :
  infer_relative_search_space product_search_space self study trial !! name = Some d ↔
  product_search_space study !! name = Some d ∧
  (is_categorical d = true ∨ single d = false).
Proof.
  unfold infer_relative_search_space.
  rewrite infer_loop_lookup by apply NoDup_fst_items.
  rewrite elem_of_items, kept_iff, lookup_empty.
  split; [intros [[? ?]|[[=] _]]; by split|intros [? ?]; left; by split].
Qed.

(** ** [sample_relative] on the empty search space *)

(** C8: on the empty search space [sample_relative] returns the empty dict
    and leaves the trace of backend calls as it was: no [skopt.Optimizer] is
    constructed, nothing is told and no point is asked for. *)
Theorem sample_relative_empty `{BaseDistribution} `{SkoptSpace} `{DictOrder}
    (skopt_ask : list skopt.event → list pyvalue)
    (self : SkoptSampler) (study : InTrialStudy) (trial : FrozenTrial)
    (tr : list skopt.event) :
  sample_relative skopt_ask self study trial ∅ tr = (Ok ∅, tr).
Proof. unfold sample_relative. by rewrite map_size_empty, bool_decide_eq_true_2. Qed.

(** ** [_Optimizer.__init__] *)

Lemma float_floordiv_Ok (vx wx : float) :
  (wx =? 0)%float = false → ∃ r, float_floordiv vx wx = Ok r.
Proof.
  intros Hw. unfold float_floordiv. rewrite Hw.
  destruct (negb (_ =? 0)%float); eauto.
Qed.


Lemma checked_Ok {A} (check : option exn) (object object' : A) :
  checked check object = Ok object' ↔ check = None ∧ object' = object.
Proof.
  destruct check as [e|]; simpl; split.
  - done.
  - by intros [? _].
  - by intros [= ->].
  - by intros [_ ->].
Qed.

Section init.
Context `{SkoptSpace} `{DictOrder}.

Lemma init_loop_Ok (l : list (string * distribution))
    (acc dims : list space.dimension) :
  init_loop l acc = Ok dims ↔
  ∃ ds, Forall2 (λ it dim, dimension_of it.2 = Ok dim) l ds ∧ dims = acc ++ ds.
Proof.
  revert acc. induction l as [|[n d] l IH]; intros acc; simpl.
  - split.
    + intros [= <-]. exists []. by rewrite app_nil_r.
    + intros (ds & ->%Forall2_nil_inv_l & ->). by rewrite app_nil_r.
  - rewrite result_bind_Ok. split.
    + intros (dim & Hd & (ds & Hds & ->)%IH). exists (dim :: ds).
      split; [by constructor|]. by rewrite <- app_assoc.
    + intros (ds & (dim & ds' & Hd & Hds & ->)%Forall2_cons_inv_l & ->).
      exists dim. split; [done|]. apply IH. exists ds'. by rewrite <- app_assoc.
Qed.

Lemma init_loop_Raise (l : list (string * distribution))
    (acc : list space.dimension) (e : exn) :
  init_loop l acc = Raise e ↔
  ∃ l1 it l2, l = l1 ++ it :: l2 ∧
    Forall (λ it, is_Ok (dimension_of it.2) = true) l1 ∧
    dimension_of it.2 = Raise e.
Proof.
  revert acc. induction l as [|[n d] l IH]; intros acc; simpl.
  - split; [done|]. by intros ([|??] & ? & ? & ? & _).
  - rewrite result_bind_Raise. split.
    + intros [Hd|(dim & Hd & (l1 & it & l2 & -> & Hl1 & Hit)%IH)].
      * by exists [], (n, d), l.
      * exists ((n, d) :: l1), it, l2. split; [done|]. split; [|done].
        constructor; [|done]. simpl. by rewrite Hd.
    + intros ([|it1 l1] & it & l2 & Heq & Hl1 & Hit); simplify_eq/=.
      * by left.
      * apply Forall_cons in Hl1 as [Hd Hl1]. simpl in Hd.
        destruct (dimension_of d) as [dim|] eqn:E; [|done].
        right. exists dim. split; [done|]. apply IH. by exists l1, it, l2.
Qed.

(** The loop raises as soon as one distribution has no dimension. *)
Lemma init_loop_raises (l : list (string * distribution))
    (acc : list space.dimension) (it : string * distribution) :
  it ∈ l → is_Ok (dimension_of it.2) = false → ∃ e, init_loop l acc = Raise e.
Proof.
  intros [i Hi]%list_elem_of_lookup Hit.
  destruct (init_loop l acc) as [dims|e] eqn:E; [|by exists e].
  apply init_loop_Ok in E as (ds & Hds & _).
  destruct (Forall2_lookup_l _ _ _ _ _ Hds Hi) as (dim & _ & Hdim).
  by rewrite Hdim in Hit.
Qed.

Lemma dimension_of_supported (d : distribution) (dimension : space.dimension) :
  dimension_of d = Ok dimension → supported d = true.
Proof. by destruct d. Qed.


(** The dimension of a continuous distribution, when skopt accepts it. *)
Lemma space_Real_Ok (low high : float) (prior : string) (dimension : space.dimension) :
  space_Real low high prior = Ok dimension →
  dimension = space.Real low high prior ∧ (high <=? low)%float = false.
Proof.
  unfold space_Real. intros [Hcheck ->]%checked_Ok. split; [done|].
  destruct (high <=? low)%float eqn:E; [|done].
  by rewrite (Real_check_bounds low high prior E) in Hcheck.
Qed.

Lemma space_Real_refused (low high : float) (prior : string) :
  (high <=? low)%float = true → space_Real low high prior = Raise ValueError.
Proof. intros Hle. unfold space_Real. by rewrite (Real_check_bounds low high prior Hle). Qed.

Lemma Optimizer_init_cases (search_space : gmap string distribution)
    (skopt_kwargs : gmap string pyvalue) (tr : list skopt.event) :
  (∃ e l1 it l2,
     Optimizer_init search_space skopt_kwargs tr = (Raise e, tr) ∧
     sorted (items search_space) = l1 ++ it :: l2 ∧
     Forall (λ it, is_Ok (dimension_of it.2) = true) l1 ∧
     dimension_of it.2 = Raise e) ∨
  (∃ dimensions,
     Forall2 (λ it dimension, dimension_of it.2 = Ok dimension)
       (sorted (items search_space)) dimensions ∧
     Optimizer_init search_space skopt_kwargs tr =
       (Ok {| _search_space := search_space |},
        tr ++ [skopt.Optimizer dimensions skopt_kwargs])).
Proof.
  unfold Optimizer_init, mbind, backend_mbind, backend_bind, backend_lift, backend_call.
  destruct (init_loop (sorted (items search_space)) []) as [dims|e] eqn:E.
  - right. exists dims. split; [|done].
    by apply init_loop_Ok in E as (ds & Hds & ->).
  - left. apply init_loop_Raise in E as (l1 & it & l2 & Hl & Hl1 & Hit).
    by exists e, l1, it, l2.
Qed.

Lemma Optimizer_init_Ok (search_space : gmap string distribution)
    (skopt_kwargs : gmap string pyvalue) (tr tr' : list skopt.event) (o : _Optimizer) :
  Optimizer_init search_space skopt_kwargs tr = (Ok o, tr') ↔
  ∃ dims, Forall2 (λ it dim, dimension_of it.2 = Ok dim)
            (sorted (items search_space)) dims ∧
          tr' = tr ++ [skopt.Optimizer dims skopt_kwargs] ∧
          o = {| _search_space := search_space |}.
Proof.
  destruct (Optimizer_init_cases search_space skopt_kwargs tr)
    as [(e & l1 & it & l2 & -> & Hl & Hl1 & Hit)|(ds & Hds & ->)]; split.
  - done.
  - intros (dims & Hdims & _). exfalso.
    assert (it ∈ sorted (items search_space)) as [i Hi]%list_elem_of_lookup.
    { rewrite Hl. apply elem_of_app. right. by left. }
    destruct (Forall2_lookup_l _ _ _ _ _ Hdims Hi) as (dim & _ & Hdim). congruence.
  - intros [= <- <-]. by exists ds.
  - intros (dims & Hdims & -> & ->).
    assert (dims = ds) as ->; [|done].
    revert Hds Hdims. generalize (sorted (items search_space)).
    intros l. revert ds dims. induction l as [|it l IH]; intros ds dims.
    + by intros ->%Forall2_nil_inv_l ->%Forall2_nil_inv_l.
    + intros (d1 & ds1 & H1' & Hds & ->)%Forall2_cons_inv_l
             (d2 & ds2 & H2' & Hdims & ->)%Forall2_cons_inv_l.
      f_equal; [congruence|]. by apply IH.
Qed.

(** A distribution of the search space without a dimension makes
    [__init__] raise before the optimizer is constructed. *)
Lemma Optimizer_init_raises (search_space : gmap string distribution)
    (skopt_kwargs : gmap string pyvalue) (tr : list skopt.event)
    (name : string) (d : distribution) :
  search_space !! name = Some d → is_Ok (dimension_of d) = false →
  ∃ e, Optimizer_init search_space skopt_kwargs tr = (Raise e, tr).
Proof.
  intros Hname%elem_of_sorted_items Hd.
  destruct (Optimizer_init_cases search_space skopt_kwargs tr)
    as [(e & l1 & it & l2 & Hinit & _)|(ds & Hds & _)]; [by exists e|].
  apply list_elem_of_lookup in Hname as [i Hi].
  destruct (Forall2_lookup_l _ _ _ _ _ Hds Hi) as (dim & _ & Hdim).
  simpl in Hdim. by rewrite Hdim in Hd.
Qed.
End init.


Lemma Forall_exists_Forall2 {A B} (R : A → B → Prop) (l : list A) :
  Forall (λ x, ∃ y, R x y) l → ∃ k, Forall2 R l k.
Proof.
  induction 1 as [|x l [y Hy] _ [k Hk]]; [by exists []|].
  exists (y :: k). by constructor.
Qed.

(** ** [_is_compatible] and the replay of the trials *)

Section replay.
Context `{BaseDistribution} `{DictOrder}.
Implicit Types (self : _Optimizer) (study : InTrialStudy) (trial : FrozenTrial).
Implicit Types (l : list (string * distribution)).

Lemma is_compatible_loop_true l trial :
  is_compatible_loop l trial = Ok true ↔
  Forall (λ it, ∃ v internal, params trial !! it.1 = Some v ∧
                  to_internal_repr it.2 v = Ok internal ∧
                  _contains it.2 internal = Ok true) l.
Proof.
  induction l as [|[n d] l IH]; simpl.
  - split; [by constructor|done].
  - rewrite Forall_cons. simpl. destruct (params trial !! n) as [v|].
    + destruct (to_internal_repr d v) as [i|e] eqn:Ei; simpl.
      * destruct (_contains d i) as [[]|e] eqn:Ec; simpl.
        -- rewrite IH. split; [intros ?; split; [by exists v, i|done]|by intros [_ ?]].
        -- split; [done|]. intros [(v' & i' & [= <-] & Hi & Hc) _]. congruence.
        -- split; [done|]. intros [(v' & i' & [= <-] & Hi & Hc) _]. congruence.
      * split; [done|]. intros [(v' & i' & [= <-] & Hi & _) _]. congruence.
    + split; [done|]. by intros [(v' & i' & ? & _) _].
Qed.

Lemma _is_compatible_true self trial :
  _is_compatible self trial = Ok true ↔
  ∀ name d, _search_space self !! name = Some d →
    ∃ v internal, params trial !! name = Some v ∧
      to_internal_repr d v = Ok internal ∧ _contains d internal = Ok true.
Proof.
  unfold _is_compatible. rewrite is_compatible_loop_true, Forall_forall.
  split.
  - intros Hall name d Hd. by apply (Hall (name, d)), elem_of_items.
  - intros Hall [name d] Hd%elem_of_items. by apply Hall.
Qed.

(** The verdict [False]: some name of the list is missing from the trial,
    or its value is not contained. *)
Lemma is_compatible_loop_false l trial :
  is_compatible_loop l trial = Ok false →
  ∃ it, it ∈ l ∧
    (params trial !! it.1 = None ∨
     ∃ v internal, params trial !! it.1 = Some v ∧
       to_internal_repr it.2 v = Ok internal ∧ _contains it.2 internal = Ok false).
Proof.
  induction l as [|[n d] l IH]; simpl; [done|].
  destruct (params trial !! n) as [v|] eqn:En.
  - destruct (to_internal_repr d v) as [i|e] eqn:Ei; simpl; [|done].
    destruct (_contains d i) as [[]|e] eqn:Ec; simpl; [| |done].
    + intros (it & Hin & Hit)%IH. exists it. split; [by right|done].
    + intros _. exists (n, d). split; [by left|]. right. by exists v, i.
  - intros _. exists (n, d). split; [by left|]. by left.
Qed.


Lemma is_compatible_loop_returns l trial :
  Forall (λ it, ∀ v, params trial !! it.1 = Some v →
            ∃ internal b, to_internal_repr it.2 v = Ok internal ∧
                          _contains it.2 internal = Ok b) l →
  is_Ok (is_compatible_loop l trial) = true.
Proof.
  induction 1 as [|[n d] l Hit _ IH]; simpl; [done|].
  simpl in Hit. destruct (params trial !! n) as [v|]; [|done].
  destruct (Hit v eq_refl) as (i & b & -> & Hb). simpl. rewrite Hb. simpl.
  by destruct b.
Qed.

Lemma checks_return_is_Ok self trial :
  checks_return (_search_space self) trial = true →
  is_Ok (_is_compatible self trial) = true.
Proof.
  unfold checks_return. rewrite forallb_forall. intros Hall.
  apply is_compatible_loop_returns, Forall_forall. intros [n d] Hin v Hv.
  rewrite items_Permutation in Hin. apply list_elem_of_In, Hall in Hin.
  simpl in *. rewrite Hv in Hin.
  destruct (to_internal_repr d v) as [i|]; [|done].
  destruct (_contains d i) as [b|] eqn:Ec; [|done]. by exists i, b.
Qed.

Lemma complete_trials_checked self study :
  forallb (checks_return (_search_space self)) (complete_trials study) = true →
  Forall (λ trial, state trial = COMPLETE → is_Ok (_is_compatible self trial) = true)
    (trials study).
Proof.
  rewrite forallb_forall. intros Hall. apply Forall_forall. intros t Ht Hs.
  apply checks_return_is_Ok, Hall, list_elem_of_In.
  unfold complete_trials. by apply list_elem_of_filter.
Qed.

Lemma observation_loop_Ok l trial (acc pv : list pyvalue) :
  observation_loop l trial acc = Ok pv ↔
  ∃ vs, Forall2 (λ it v, ∃ raw, params trial !! it.1 = Some raw ∧
                                observation_value it.2 raw = Ok v) l vs ∧
        pv = acc ++ vs.
Proof.
  revert acc. induction l as [|[n d] l IH]; intros acc; simpl.
  - split.
    + intros [= <-]. exists []. by rewrite app_nil_r.
    + intros (vs & ->%Forall2_nil_inv_l & ->). by rewrite app_nil_r.
  - rewrite result_bind_Ok. split.
    + intros (raw & Hraw & (v & Hv & (vs & Hvs & ->)%IH)%result_bind_Ok).
      destruct (params trial !! n) as [raw'|] eqn:E; [|done]. injection Hraw as ->.
      exists (v :: vs). split; [|by rewrite <- app_assoc].
      constructor; [|done]. by exists raw.
    + intros (vs & (v & vs' & (raw & Hraw & Hv) & Hvs & ->)%Forall2_cons_inv_l & ->).
      simpl in *. exists raw. rewrite Hraw. split; [done|].
      apply result_bind_Ok. exists v. split; [done|].
      apply IH. exists vs'. by rewrite <- app_assoc.
Qed.

Lemma is_number_as_float (v : pyvalue) :
  is_number v = true → ∃ x, as_float v = Ok x.
Proof. unfold is_number. destruct (as_float v) as [x|]; [by exists x|done]. Qed.

Lemma observation_value_Ok (d : distribution) (raw : pyvalue) :
  match d with
  | DiscreteUniformDistribution _ _ q => is_number raw = true ∧ (q =? 0)%float = false
  | _ => True
  end →
  ∃ v, observation_value d raw = Ok v.
Proof.
  destruct d as [| | |low high q| |]; simpl; eauto.
  intros [[x Hx]%is_number_as_float Hq]. unfold py_sub. rewrite Hx. simpl.
  destruct (float_floordiv_Ok (x - low) q Hq) as [r ->]. simpl. eauto.
Qed.

Lemma observation_Ok self study trial :
  nonzero_steps (_search_space self) = true →
  well_typed_trial (_search_space self) trial = true →
  _is_compatible self trial = Ok true →
  ∃ pv v, value trial = Some v ∧
    _complete_trial_to_skopt_observation self study trial = Ok (pv, signed study v).
Proof.
  unfold well_typed_trial.
  rewrite andb_true_iff, bool_decide_eq_true.
  intros Hq [[v Hv] Hty] Hc.
  rewrite _is_compatible_true in Hc.
  assert (∃ pv, observation_loop (sorted (items (_search_space self))) trial [] = Ok pv)
    as [pv Hpv].
  { destruct (Forall_exists_Forall2
      (λ (it : string * distribution) v, ∃ raw, params trial !! it.1 = Some raw ∧
         observation_value it.2 raw = Ok v) (sorted (items (_search_space self))))
      as [vs Hvs].
    - apply Forall_forall. intros [n d] Hin.
      pose proof (forallb_sorted_items _ _ _ Hq Hin) as Hqd.
      pose proof (forallb_sorted_items _ _ _ Hty Hin) as Htyd.
      apply elem_of_sorted_items in Hin.
      destruct (Hc n d Hin) as (raw & _ & Hraw & _).
      simpl in *. rewrite Hraw in Htyd.
      destruct (observation_value_Ok d raw) as [w Hw].
      { destruct d; try done. split; [done|]. by apply negb_true_iff. }
      exists w, raw. by split.
    - exists ([] ++ vs). apply observation_loop_Ok. by exists vs. }
  exists pv, v. split; [done|].
  unfold _complete_trial_to_skopt_observation. rewrite Hpv, Hv. simpl.
  unfold signed. by destruct (direction study).
Qed.


Lemma observation_objective self study trial pv y :
  _complete_trial_to_skopt_observation self study trial = Ok (pv, y) →
  ∃ v, value trial = Some v ∧ y = signed study v.
Proof.
  unfold _complete_trial_to_skopt_observation.
  intros (pv' & _ & (v & Hv & [= _ <-])%result_bind_Ok)%result_bind_Ok.
  destruct (value trial) as [v'|]; [|done]. injection Hv as ->.
  exists v. split; [done|]. unfold signed. by destruct (direction study).
Qed.


Lemma tell_loop_Ok self study (l : list FrozenTrial) xs ys xs' ys' :
  tell_loop self study l xs ys = Ok (xs', ys') ↔
  Forall (λ trial, state trial = COMPLETE → is_Ok (_is_compatible self trial) = true) l ∧
  ∃ obs, Forall2 (λ t o, _complete_trial_to_skopt_observation self study t = Ok o)
           (filter (λ trial, state trial = COMPLETE ∧ _is_compatible self trial = Ok true) l)
           obs ∧
         xs' = xs ++ obs.*1 ∧ ys' = ys ++ obs.*2.
Proof.
  revert xs ys. induction l as [|t l IH]; intros xs ys.
  - simpl. split.
    + intros [= <- <-]. split; [constructor|]. exists []. by rewrite !app_nil_r.
    + intros (_ & obs & ->%Forall2_nil_inv_l & -> & ->). by rewrite !app_nil_r.
  - simpl. rewrite Forall_cons. case_bool_decide as Hs.
    { rewrite filter_cons_False by (by intros [? _]). rewrite IH. tauto. }
    assert (state t = COMPLETE) as Hst by (by destruct (state t)).
    destruct (_is_compatible self t) as [[]|e] eqn:Hc; simpl.
    + rewrite filter_cons_True by done. rewrite result_bind_Ok. split.
      * intros (o & Ho & (Hl & obs & Hobs & -> & ->)%IH). split; [done|].
        exists (o :: obs). split; [by constructor|]. by rewrite <- !app_assoc.
      * intros ([_ Hl] & obs & (o & obs' & Ho & Hobs & ->)%Forall2_cons_inv_l & -> & ->).
        exists o. split; [done|]. apply IH. split; [done|]. exists obs'.
        by rewrite <- !app_assoc.
    + rewrite filter_cons_False by (intros [_ ?]; congruence). rewrite IH. tauto.
    + split; [done|]. intros [[Ht _] _]. by specialize (Ht Hst).
Qed.

Lemma tell_trace self study (tr : list skopt.event) :
  (tell self study tr).2 = tr ∨
  ∃ xs ys, tell self study tr = (Ok tt, tr ++ [skopt.tell xs ys]).
Proof.
  unfold tell, mbind, backend_mbind, backend_bind, backend_lift, backend_call.
  destruct (tell_loop self study (trials study) [] []) as [[xs ys]|e]; simpl.
  - right. by exists xs, ys.
  - by left.
Qed.

Lemma tell_Ok self study (tr : list skopt.event) :
  nonzero_steps (_search_space self) = true →
  forallb (checks_return (_search_space self)) (complete_trials study) = true →
  forallb (well_typed_trial (_search_space self)) (replayed self study) = true →
  ∃ obs,
    Forall2 (λ t o, _complete_trial_to_skopt_observation self study t = Ok o)
      (replayed self study) obs ∧
    tell self study tr = (Ok tt, tr ++ [skopt.tell obs.*1 obs.*2]).
Proof.
  intros Hq Hch Hty. rewrite forallb_forall in Hty.
  destruct (Forall_exists_Forall2
    (λ t o, _complete_trial_to_skopt_observation self study t = Ok o)
    (replayed self study)) as [obs Hobs].
  { apply Forall_forall. intros t Ht.
    pose proof Ht as [[_ Hc] _]%list_elem_of_filter.
    apply list_elem_of_In, Hty in Ht.
    destruct (observation_Ok self study t Hq Ht Hc) as (pv & v & _ & Ho). eauto. }
  exists obs. split; [done|].
  unfold tell, mbind, backend_mbind, backend_bind, backend_lift, backend_call.
  assert (tell_loop self study (trials study) [] [] = Ok (obs.*1, obs.*2)) as ->.
  { apply tell_loop_Ok. split; [by apply complete_trials_checked|]. by exists obs. }
  done.
Qed.
End replay.

Section told.
Context `{BaseDistribution} `{DictOrder}.
Implicit Types (self : _Optimizer) (study : InTrialStudy) (trial : FrozenTrial).

Lemma tell_cases self study (tr : list skopt.event) :
  (∃ e, tell self study tr = (Raise e, tr)) ∨
  (∃ xs ys, tell self study tr = (Ok tt, tr ++ [skopt.tell xs ys])).
Proof.
  unfold tell, mbind, backend_mbind, backend_bind, backend_lift, backend_call.
  destruct (tell_loop self study (trials study) [] []) as [[xs ys]|e].
  - right. by exists xs, ys.
  - left. by exists e.
Qed.


End told.





(** C5: the objective that [tell] feeds the backend for a replayed trial is
    the trial's value, negated when the direction of the study is
    [MAXIMIZE] and as recorded otherwise; with the direction [MAXIMIZE] and a
    single complete trial of value 5.0 the backend is told -5.0. *)
Theorem tell_objective_sign `{BaseDistribution} `{DictOrder}
    (self : _Optimizer) (study : InTrialStudy) (tr : list skopt.event) :
  (nonzero_steps (_search_space self) = true →
   forallb (checks_return (_search_space self)) (complete_trials study) = true →
   forallb (well_typed_trial (_search_space self)) (replayed self study) = true →
   ∃ xs ys, tell self study tr = (Ok tt, tr ++ [skopt.tell xs ys]) ∧
     Forall2 (λ trial y, ∃ v, value trial = Some v ∧
                y = match direction study with
                    | MAXIMIZE => (- v)%float
                    | MINIMIZE | NOT_SET => v
                    end) (replayed self study) ys) ∧
  @tell optuna_distributions dict_order example.optimizer
    {| trials := [example.trial0]; direction := MAXIMIZE |} [] =
    (Ok tt, [skopt.tell [[PyStr "b"; PyFloat 3; PyFloat 1]] [(-5)%float]]).
Proof.
  split; [|by vm_compute].
  intros Hq Hch Hty. destruct (tell_Ok self study tr Hq Hch Hty) as (obs & Hobs & ->).
  exists obs.*1, obs.*2. split; [done|].
  apply Forall2_fmap_r. eapply Forall2_impl; [exact Hobs|].
  intros t [pv y] Ho. simpl. by apply observation_objective in Ho.
Qed.

(** ** [_Optimizer.ask] *)

Section propose.
Context `{BaseDistribution} `{DictOrder}.
Implicit Types (l : list ((string * distribution) * pyvalue)).
Implicit Types (params : gmap string pyvalue).

Lemma ask_value_Ok (d : distribution) (v : pyvalue) :
  match d with
  | DiscreteUniformDistribution _ _ _ => is_number v = true
  | _ => True
  end →
  ∃ v', ask_value d v = Ok v'.
Proof.
  destruct d; simpl; eauto. intros [x Hx]%is_number_as_float.
  unfold py_mul. rewrite Hx. simpl. eauto.
Qed.

Lemma ask_value_discrete (low high q : float) (v v' : pyvalue) :
  ask_value (DiscreteUniformDistribution low high q) v = Ok v' →
  ∃ x, as_float v = Ok x ∧ v' = PyFloat (x * q + low)%float.
Proof.
  simpl. unfold py_mul.
  intros (y & (x & Hx & [= <-])%result_bind_Ok & [= <-])%result_bind_Ok. eauto.
Qed.

Lemma ask_loop_Ok l params :
  well_typed_point l = true → conversions_return l = true →
  ∃ params', ask_loop l params = Ok params'.
Proof.
  unfold well_typed_point, conversions_return. revert params.
  induction l as [|[[n d] v] l IH]; intros params; simpl; [eauto|].
  intros [Hv Hl]%andb_true_iff [Hc Hcl]%andb_true_iff.
  destruct (ask_value_Ok d v) as [v' Hv']; [by destruct d|].
  rewrite Hv' in Hc |- *. simpl.
  destruct (to_internal_repr d v') as [internal|]; [|done]. simpl. by apply IH.
Qed.

Lemma ask_loop_lookup_other l params params' (name : string) :
  ask_loop l params = Ok params' → name ∉ l.*1.*1 → params' !! name = params !! name.
Proof.
  revert params. induction l as [|[[n d] v] l IH]; intros params; simpl.
  - by intros [= <-].
  - intros (v' & _ & (internal & _ & Hl)%result_bind_Ok)%result_bind_Ok Hname.
    apply not_elem_of_cons in Hname as [Hne Hname].
    rewrite (IH _ Hl Hname). by rewrite lookup_insert_ne.
Qed.

Lemma ask_loop_lookup l params params' (i : nat) (name : string)
    (d : distribution) (v : pyvalue) :
  NoDup l.*1.*1 →
  ask_loop l params = Ok params' →
  l !! i = Some ((name, d), v) →
  ∃ v' internal, ask_value d v = Ok v' ∧ to_internal_repr d v' = Ok internal ∧
    params' !! name = Some internal.
Proof.
  revert params i. induction l as [|[[n0 d0] v0] l IH]; intros params i Hnd; [done|].
  simpl in *. apply NoDup_cons in Hnd as [Hn0 Hnd].
  intros (v' & Hv' & (internal & Hint & Hl)%result_bind_Ok)%result_bind_Ok.
  destruct i as [|i]; simpl.
  - intros [= -> -> ->]. exists v', internal. split; [done|]. split; [done|].
    rewrite (ask_loop_lookup_other _ _ _ _ Hl Hn0). by rewrite lookup_insert_eq.
  - intros Hi. by eapply IH.
Qed.

Lemma ask_loop_dom l params params' (name : string) :
  ask_loop l params = Ok params' →
  is_Some (params' !! name) → is_Some (params !! name) ∨ name ∈ l.*1.*1.
Proof.
  revert params. induction l as [|[[n d] v] l IH]; intros params; simpl.
  - intros [= <-]. by left.
  - intros (v' & _ & (internal & _ & Hl)%result_bind_Ok)%result_bind_Ok Hs.
    destruct (IH _ Hl Hs) as [Hin|Hin].
    + destruct (decide (n = name)) as [->|Hne]; [right; by left|].
      rewrite lookup_insert_ne in Hin by done. by left.
    + right. by right.
Qed.

Lemma fst_zip_prefix {A B} (l : list A) (k : list B) :
  (zip l k).*1 = take (length k) l.
Proof.
  revert k. induction l as [|x l IH]; intros [|y k]; simpl; try done.
  by rewrite IH.
Qed.

Lemma NoDup_zip_sorted_items (space : gmap string distribution) (point : list pyvalue) :
  NoDup (zip (sorted (items space)) point).*1.*1.
Proof.
  rewrite fst_zip_prefix, fmap_take.
  apply (sublist_NoDup _ (sorted (items space)).*1);
    [apply NoDup_fst_sorted_items|apply sublist_take].
Qed.

Lemma ask_unfold (skopt_ask : list skopt.event → list pyvalue)
    (self : _Optimizer) (tr : list skopt.event) :
  ask skopt_ask self tr =
  (ask_loop (zip (sorted (items (_search_space self))) (skopt_ask (tr ++ [skopt.ask]))) ∅,
   tr ++ [skopt.ask]).
Proof. done. Qed.

Lemma ask_spec (skopt_ask : list skopt.event → list pyvalue)
    (self : _Optimizer) (tr : list skopt.event) params
    (tr' : list skopt.event) :
  ask skopt_ask self tr = (Ok params, tr') →
  tr' = tr ++ [skopt.ask] ∧
  (∀ i name d v,
     sorted (items (_search_space self)) !! i = Some (name, d) →
     skopt_ask (tr ++ [skopt.ask]) !! i = Some v →
     ∃ v' internal, ask_value d v = Ok v' ∧ to_internal_repr d v' = Ok internal ∧
       params !! name = Some internal) ∧
  (∀ name, is_Some (params !! name) →
     ∃ i d v, sorted (items (_search_space self)) !! i = Some (name, d) ∧
              skopt_ask (tr ++ [skopt.ask]) !! i = Some v).
Proof.
  rewrite ask_unfold. intros [= Hl <-]. split; [done|]. split.
  - intros i name d v Hi Hv.
    eapply ask_loop_lookup; [apply NoDup_zip_sorted_items|exact Hl|].
    apply lookup_zip_with_Some. by exists (name, d), v.
  - intros name Hs. destruct (ask_loop_dom _ _ _ _ Hl Hs) as [[? Hin]|Hin].
    { by rewrite lookup_empty in Hin. }
    apply list_elem_of_fmap in Hin as ([n d] & -> & Hin).
    apply list_elem_of_fmap in Hin as ([[n' d'] v] & [= <- <-] & Hin).
    apply list_elem_of_lookup in Hin as [i Hi].
    apply lookup_zip_with_Some in Hi as (it & v' & [= <- <-] & Hit & Hv').
    by exists i, d, v.
Qed.

Lemma ask_positions (skopt_ask : list skopt.event → list pyvalue)
    (self : _Optimizer) (tr : list skopt.event) :
  well_typed_point
    (zip (sorted (items (_search_space self))) (skopt_ask (tr ++ [skopt.ask]))) = true →
  conversions_return
    (zip (sorted (items (_search_space self))) (skopt_ask (tr ++ [skopt.ask]))) = true →
  ∃ params,
    ask skopt_ask self tr = (Ok params, tr ++ [skopt.ask]) ∧
    (∀ i name d v,
       sorted (items (_search_space self)) !! i = Some (name, d) →
       skopt_ask (tr ++ [skopt.ask]) !! i = Some v →
       ∃ v' internal, ask_value d v = Ok v' ∧ to_internal_repr d v' = Ok internal ∧
         params !! name = Some internal) ∧
    (∀ name, is_Some (params !! name) →
       ∃ i d v, sorted (items (_search_space self)) !! i = Some (name, d) ∧
                skopt_ask (tr ++ [skopt.ask]) !! i = Some v).
Proof.
  intros Hty Hconv.
  destruct (ask_loop_Ok _ ∅ Hty Hconv) as [params Hparams].
  assert (ask skopt_ask self tr = (Ok params, tr ++ [skopt.ask])) as Hask.
  { rewrite ask_unfold. by rewrite Hparams. }
  exists params. split; [done|].
  by destruct (ask_spec _ _ _ _ _ Hask) as (_ & Hpos & Hdom).
Qed.
End propose.

(** C1, as amended: [ask] asks the backend for one point and returns a dict
    that maps the name at each position of the sorted search space to the
    positional value of the point, rescaled to [value * q + low] for a
    discrete distribution and then converted by [to_internal_repr], the
    distribution's external-to-internal conversion; names past the end of the
    point are absent.  The values are internal representations. *)
Theorem ask_returns_internal_repr `{BaseDistribution} `{DictOrder}
    (skopt_ask : list skopt.event → list pyvalue)
    (self : _Optimizer) (tr : list skopt.event) :
  well_typed_point
    (zip (sorted (items (_search_space self))) (skopt_ask (tr ++ [skopt.ask]))) = true →
  conversions_return
    (zip (sorted (items (_search_space self))) (skopt_ask (tr ++ [skopt.ask]))) = true →
  ∃ params,
    ask skopt_ask self tr = (Ok params, tr ++ [skopt.ask]) ∧
    (∀ i name d v,
       sorted (items (_search_space self)) !! i = Some (name, d) →
       skopt_ask (tr ++ [skopt.ask]) !! i = Some v →
       match d with
       | DiscreteUniformDistribution low _ q =>
           ∃ x internal, as_float v = Ok x ∧
             to_internal_repr d (PyFloat (x * q + low)%float) = Ok internal ∧
             params !! name = Some internal
       | _ =>
           ∃ internal, to_internal_repr d v = Ok internal ∧
             params !! name = Some internal
       end) ∧
    (∀ name, is_Some (params !! name) →
       ∃ i d v, sorted (items (_search_space self)) !! i = Some (name, d) ∧
                skopt_ask (tr ++ [skopt.ask]) !! i = Some v).
Proof.
  intros Hty Hconv.
  destruct (ask_positions skopt_ask self tr Hty Hconv) as (params & Hask & Hpos & Hdom).
  exists params. split; [done|]. split; [|done].
  intros i name d v Hi Hv.
  destruct (Hpos i name d v Hi Hv) as (v' & internal & Hv' & Hint & Hlook).
  destruct d as [| | |low high q| |];
    try (injection Hv' as <-; by exists internal).
  apply ask_value_discrete in Hv' as (x & Hx & ->). by exists x, internal.
Qed.

(** C1, as the specification states it, fails: for the categorical
    parameter ["c"] with the choices 1, 2 and 0, when the backend proposes
    the choice 1, [ask] returns the position 0 of that choice, while the
    internal-to-external conversion of 1 is the choice at position 1, that
    is 2. *)
Lemma ask_not_external_repr :
  (@ask optuna_distributions dict_order example.categorical_ask
     {| _search_space := example.categorical_space |} []).1
  = Ok {["c" := PyInt 0]} ∧
  @propose_external optuna_distributions dict_order
     {| _search_space := example.categorical_space |} (example.categorical_ask [skopt.ask])
  = Ok {["c" := PyInt 2]} ∧
  (@ask optuna_distributions dict_order example.categorical_ask
     {| _search_space := example.categorical_space |} []).1
  ≠ @propose_external optuna_distributions dict_order
     {| _search_space := example.categorical_space |} (example.categorical_ask [skopt.ask]).
Proof.
  assert ((@ask optuna_distributions dict_order example.categorical_ask
     {| _search_space := example.categorical_space |} []).1
     = Ok {["c" := PyInt 0]}) as H1 by (by vm_compute).
  assert (@propose_external optuna_distributions dict_order
     {| _search_space := example.categorical_space |} (example.categorical_ask [skopt.ask])
     = Ok {["c" := PyInt 2]}) as H2 by (by vm_compute).
  split; [done|]. split; [done|].
  rewrite H1, H2. intros Heq.
  pose proof (f_equal (λ r : result (gmap string pyvalue),
                match r with Ok m => m !! "c" | Raise _ => None end) Heq) as Hc.
  simpl in Hc. by rewrite !lookup_singleton_eq in Hc.
Qed.

(** ** Positions *)

Lemma observation_positions `{DictOrder} (self : _Optimizer)
    (study : InTrialStudy) (trial : FrozenTrial) (pv : list pyvalue) (y : float) :
  _complete_trial_to_skopt_observation self study trial = Ok (pv, y) →
  Forall2 (λ it v, ∃ raw, params trial !! it.1 = Some raw ∧
                          observation_value it.2 raw = Ok v)
    (sorted (items (_search_space self))) pv.
Proof.
  unfold _complete_trial_to_skopt_observation.
  intros (pv' & Hpv & (v & _ & [= <- _])%result_bind_Ok)%result_bind_Ok.
  by apply observation_loop_Ok in Hpv as (vs & Hvs & ->).
Qed.

Lemma observation_value_discrete (low high q : float) (raw v : pyvalue) :
  observation_value (DiscreteUniformDistribution low high q) raw = Ok v →
  ∃ x r, as_float raw = Ok x ∧ float_floordiv (x - low) q = Ok r ∧ v = PyFloat r.
Proof.
  simpl. unfold py_sub.
  intros (y & (x & Hx & [= <-])%result_bind_Ok & (r & Hr & [= <-])%result_bind_Ok)%result_bind_Ok.
  by exists x, r.
Qed.

(** C4: for a discrete distribution with bounds [low], [high] and step [q]
    at position [i] of the sorted search space, the observation of a trial
    holds [(v - low) // q] at position [i], where [v] is the value the trial
    recorded for the parameter, and [ask] decodes the backend's value [b] at
    position [i] to [b * q + low] (which it then hands to
    [to_internal_repr]).  With [low = 0], [high = 10] and [q = 2], the
    recorded value 6 is replayed as 3 and the proposed value 2 is decoded
    to 4. *)
Theorem discrete_rescale :
  (∀ `{BaseDistribution} `{DictOrder} (skopt_ask : list skopt.event → list pyvalue)
     (self : _Optimizer) (study : InTrialStudy) (trial : FrozenTrial)
     (tr : list skopt.event) (i : nat) (name : string) (low high q : float),
     sorted (items (_search_space self)) !! i
       = Some (name, DiscreteUniformDistribution low high q) →
     (nonzero_steps (_search_space self) = true →
      well_typed_trial (_search_space self) trial = true →
      _is_compatible self trial = Ok true →
      ∃ pv y raw x r,
        _complete_trial_to_skopt_observation self study trial = Ok (pv, y) ∧
        params trial !! name = Some raw ∧ as_float raw = Ok x ∧
        float_floordiv (x - low) q = Ok r ∧ pv !! i = Some (PyFloat r)) ∧
     (well_typed_point
        (zip (sorted (items (_search_space self))) (skopt_ask (tr ++ [skopt.ask]))) = true →
      conversions_return
        (zip (sorted (items (_search_space self))) (skopt_ask (tr ++ [skopt.ask]))) = true →
      ∀ b, skopt_ask (tr ++ [skopt.ask]) !! i = Some b →
      ∃ params x internal,
        ask skopt_ask self tr = (Ok params, tr ++ [skopt.ask]) ∧
        as_float b = Ok x ∧
        to_internal_repr (DiscreteUniformDistribution low high q)
          (PyFloat (x * q + low)%float) = Ok internal ∧
        params !! name = Some internal)) ∧
  @_complete_trial_to_skopt_observation dict_order
    {| _search_space := example.discrete_space |}
    {| trials := [example.discrete_trial]; direction := MINIMIZE |}
    example.discrete_trial = Ok ([PyFloat 3], 1%float) ∧
  @ask optuna_distributions dict_order (λ _, [PyInt 2])
    {| _search_space := example.discrete_space |} []
    = (Ok {["d" := PyFloat 4]}, [skopt.ask]).
Proof.
  split; [|split; by vm_compute].
  intros HD HO skopt_ask self study trial tr i name low high q Hi. split.
  - intros Hq Hty Hc.
    destruct (observation_Ok self study trial Hq Hty Hc) as (pv & v & _ & Ho).
    pose proof (observation_positions _ _ _ _ _ Ho) as Hpos.
    destruct (Forall2_lookup_l _ _ _ _ _ Hpos Hi) as (w & Hw & raw & Hraw & Hval).
    simpl in Hraw.
    apply (observation_value_discrete low high q) in Hval as (x & r & Hx & Hr & ->).
    exists pv, (signed study v), raw, x, r. repeat split; assumption.
  - intros Hty Hconv b Hb.
    destruct (ask_positions skopt_ask self tr Hty Hconv) as (params & Hask & Hpos & _).
    destruct (Hpos i name _ b Hi Hb) as (v' & internal & Hv' & Hint & Hlook).
    apply (ask_value_discrete low high q) in Hv' as (x & Hx & ->).
    exists params, x, internal. repeat split; assumption.
Qed.

(** C6: within one [_Optimizer] the positions agree and follow the sorted
    names.  The names of [sorted (items search_space)] increase strictly in
    the lexicographic order and are exactly the names of the search space;
    the dimensions handed to [skopt.Optimizer] are, position by position,
    those of the distributions in that order; the point of every observation
    holds, position by position, the values of the parameters in that order;
    and [ask] gives the value at each position of the backend's point to the
    name at that position. *)
Theorem positions_follow_sorted_names `{BaseDistribution} `{SkoptSpace} `{DictOrder}
    (skopt_ask : list skopt.event → list pyvalue)
    (search_space : gmap string distribution) (skopt_kwargs : gmap string pyvalue)
    (tr tr' : list skopt.event) (self : _Optimizer) :
  Optimizer_init search_space skopt_kwargs tr = (Ok self, tr') →
  StronglySorted (λ a b, String.ltb a b = true) (sorted (items search_space)).*1 ∧
  (∀ name d, (name, d) ∈ sorted (items search_space) ↔ search_space !! name = Some d) ∧
  (∃ dimensions,
     tr' = tr ++ [skopt.Optimizer dimensions skopt_kwargs] ∧
     Forall2 (λ it dimension, dimension_of it.2 = Ok dimension)
       (sorted (items search_space)) dimensions) ∧
  (∀ study trial pv y,
     _complete_trial_to_skopt_observation self study trial = Ok (pv, y) →
     Forall2 (λ it v, ∃ raw, params trial !! it.1 = Some raw ∧
                             observation_value it.2 raw = Ok v)
       (sorted (items search_space)) pv) ∧
  (∀ tr1 tr2 params,
     ask skopt_ask self tr1 = (Ok params, tr2) →
     ∀ i name d v,
       sorted (items search_space) !! i = Some (name, d) →
       skopt_ask (tr1 ++ [skopt.ask]) !! i = Some v →
       ∃ v' internal, ask_value d v = Ok v' ∧ to_internal_repr d v' = Ok internal ∧
         params !! name = Some internal).
Proof.
  intros (dims & Hdims & -> & ->)%Optimizer_init_Ok.
  split; [apply sorted_items_increasing|].
  split; [intros; apply elem_of_sorted_items|].
  split; [by exists dims|].
  split.
  - intros study trial pv y Ho. by apply observation_positions in Ho.
  - intros tr1 tr2 params Hask. by apply ask_spec in Hask as (_ & Hpos & _).
Qed.

(** ** Binary64 numbers: rounding of representable numbers, predecessor, order *)

Section binary64.
Local Open Scope Z_scope.

Lemma digits2_pos_bounds (m : positive) :
  2 ^ (Z.pos (digits2_pos m) - 1) ≤ Z.pos m < 2 ^ Z.pos (digits2_pos m).
Proof.
  induction m as [m IH|m IH|]; simpl digits2_pos.
  - rewrite Pos2Z.inj_succ, Z.pow_succ_r by lia.
    replace (Z.succ (Z.pos (digits2_pos m)) - 1) with (Z.succ (Z.pos (digits2_pos m) - 1)) by lia.
    rewrite Z.pow_succ_r by lia. lia.
  - rewrite Pos2Z.inj_succ, Z.pow_succ_r by lia.
    replace (Z.succ (Z.pos (digits2_pos m)) - 1) with (Z.succ (Z.pos (digits2_pos m) - 1)) by lia.
    rewrite Z.pow_succ_r by lia. lia.
  - simpl. lia.
Qed.

Lemma digits2_pos_unique (m : positive) (d : Z) :
  2 ^ (d - 1) ≤ Z.pos m < 2 ^ d → Z.pos (digits2_pos m) = d.
Proof.
  intros [Hlo Hhi]. pose proof (digits2_pos_bounds m) as [Hlo' Hhi'].
  assert (0 < d).
  { destruct (Z.lt_ge_cases 0 d); [done|].
    assert (2 ^ d ≤ 2 ^ 0) by (apply Z.pow_le_mono_r; lia). simpl in *. lia. }
  destruct (Z.lt_trichotomy (Z.pos (digits2_pos m)) d) as [Hlt|[Heq|Hgt]]; [|done|].
  - assert (2 ^ Z.pos (digits2_pos m) ≤ 2 ^ (d - 1)) by (apply Z.pow_le_mono_r; lia). lia.
  - assert (2 ^ d ≤ 2 ^ (Z.pos (digits2_pos m) - 1)) by (apply Z.pow_le_mono_r; lia). lia.
Qed.

Lemma iter_pos_nat {A} (f : A → A) (n : positive) (x : A) :
  SpecFloat.iter_pos f n x = Nat.iter (Pos.to_nat n) f x.
Proof.
  revert x. induction n as [n IH|n IH|]; intros x; cbn [SpecFloat.iter_pos].
  - rewrite !IH, Pos2Nat.inj_xI.
    replace (S (2 * Pos.to_nat n))%nat with (Pos.to_nat n + S (Pos.to_nat n))%nat by lia.
    rewrite Nat.iter_add. by rewrite Nat.iter_succ_r.
  - rewrite !IH, Pos2Nat.inj_xO.
    replace (2 * Pos.to_nat n)%nat with (Pos.to_nat n + Pos.to_nat n)%nat by lia.
    by rewrite Nat.iter_add.
  - done.
Qed.

Lemma shr_1_even (z : Z) :
  0 < z → shr_1 {| shr_m := 2 * z; shr_r := false; shr_s := false |}
        = {| shr_m := z; shr_r := false; shr_s := false |}.
Proof. by destruct z. Qed.

Lemma iter_shr_1_exact (k : nat) (z : Z) :
  0 < z →
  Nat.iter k shr_1 {| shr_m := z * 2 ^ Z.of_nat k; shr_r := false; shr_s := false |}
  = {| shr_m := z; shr_r := false; shr_s := false |}.
Proof.
  intros Hz. induction k as [|k IH].
  - simpl. by rewrite Z.mul_1_r.
  - rewrite Nat.iter_succ_r, Nat2Z.inj_succ, Z.pow_succ_r by lia.
    replace (z * (2 * 2 ^ Z.of_nat k)) with (2 * (z * 2 ^ Z.of_nat k)) by lia.
    rewrite shr_1_even by nia. apply IH.
Qed.

Lemma shr_exact (z e t : Z) :
  0 < z → 0 ≤ t →
  shr {| shr_m := z * 2 ^ t; shr_r := false; shr_s := false |} (e - t) t
  = ({| shr_m := z; shr_r := false; shr_s := false |}, e).
Proof.
  intros Hz Ht. destruct t as [|t|t]; [| |lia].
  - simpl. rewrite Z.mul_1_r. f_equal. lia.
  - unfold shr. rewrite iter_pos_nat. f_equal; [|lia].
    rewrite <- (positive_nat_Z t) at 1. by apply iter_shr_1_exact.
Qed.

Lemma fexp_canonical (m : positive) (e : Z) :
  canonical_mantissa prec emax m e = true ↔
  (Z.pos (digits2_pos m) = 53 ∧ -1074 ≤ e) ∨ (Z.pos (digits2_pos m) < 53 ∧ e = -1074).
Proof.
  unfold canonical_mantissa, fexp, SpecFloat.emin, prec, emax.
  rewrite Z.eqb_eq. lia.
Qed.

Lemma Zdigits2_mul_pow2 (q : positive) (t : Z) :
  0 ≤ t → Zdigits2 (Z.pos q * 2 ^ t) = Z.pos (digits2_pos q) + t.
Proof.
  intros Ht. pose proof (digits2_pos_bounds q) as [Hlo Hhi].
  assert (0 < 2 ^ t) by (apply Z.pow_pos_nonneg; lia).
  destruct (Z.pos q * 2 ^ t) as [|p|p] eqn:E; [lia| |lia].
  simpl. apply digits2_pos_unique. rewrite <- E.
  replace (Z.pos (digits2_pos q) + t - 1) with ((Z.pos (digits2_pos q) - 1) + t) by lia.
  rewrite !Z.pow_add_r by lia. nia.
Qed.

(** Rounding a number that is representable gives that number. *)
Lemma binary_round_aux_exact (s : bool) (q : positive) (e t : Z) :
  0 ≤ t → canonical_mantissa prec emax q e = true →
  binary_round_aux prec emax s (Z.pos q * 2 ^ t) (e - t) loc_Exact =
  if e <=? 971 then S754_finite s q e else S754_infinity s.
Proof.
  intros Ht Hc. unfold binary_round_aux.
  assert (fexp prec emax (Z.pos (digits2_pos q) + e) = e) as Hf.
  { unfold canonical_mantissa in Hc. by apply Z.eqb_eq in Hc. }
  assert (shr_fexp prec emax (Z.pos q * 2 ^ t) (e - t) loc_Exact
          = ({| shr_m := Z.pos q; shr_r := false; shr_s := false |}, e)) as ->.
  { unfold shr_fexp. rewrite Zdigits2_mul_pow2 by done.
    replace (Z.pos (digits2_pos q) + t + (e - t)) with (Z.pos (digits2_pos q) + e) by lia.
    rewrite Hf. replace (e - (e - t)) with t by lia. simpl shr_record_of_loc.
    apply shr_exact; lia. }
  simpl shr_m. simpl loc_of_shr_record. simpl round_nearest_even.
  assert (shr_fexp prec emax (Z.pos q) e loc_Exact
          = ({| shr_m := Z.pos q; shr_r := false; shr_s := false |}, e)) as ->.
  { unfold shr_fexp. simpl Zdigits2. rewrite Hf, Z.sub_diag. done. }
  done.
Qed.

Lemma binary_normalize_exact (s : bool) (q : positive) (e t : Z) (szero : bool) :
  0 ≤ t → canonical_mantissa prec emax q e = true →
  binary_normalize prec emax (cond_Zopp s (Z.pos q * 2 ^ t)) (e - t) szero =
  if e <=? 971 then S754_finite s q e else S754_infinity s.
Proof.
  intros Ht Hc.
  assert (0 < 2 ^ t) by (apply Z.pow_pos_nonneg; lia).
  destruct (Z.pos q * 2 ^ t) as [|p|p] eqn:E; [lia| |lia].
  assert (binary_round prec emax s p (e - t) =
          if e <=? 971 then S754_finite s q e else S754_infinity s) as Hr.
  { unfold binary_round.
    assert (Z.pos (digits2_pos p) = Z.pos (digits2_pos q) + t) as Hd.
    { rewrite <- Zdigits2_mul_pow2 by done. by rewrite E. }
    rewrite Hd.
    replace (Z.pos (digits2_pos q) + t + (e - t)) with (Z.pos (digits2_pos q) + e) by lia.
    unfold canonical_mantissa in Hc. apply Z.eqb_eq in Hc. rewrite Hc.
    unfold shl_align. replace (e - (e - t)) with t by lia.
    destruct t as [|t'|t']; [| |lia].
    - rewrite <- E. apply binary_round_aux_exact; [lia|].
      unfold canonical_mantissa. by apply Z.eqb_eq.
    - rewrite <- E. apply binary_round_aux_exact; [lia|].
      unfold canonical_mantissa. by apply Z.eqb_eq. }
  destruct s; simpl; exact Hr.
Qed.

Lemma canonical_pow2 (j e : Z) :
  0 ≤ j ≤ 52 → e = Z.max (j + e - 52) (-1074) →
  canonical_mantissa prec emax (Z.to_pos (2 ^ j)) e = true.
Proof.
  intros Hj He. apply fexp_canonical.
  assert (0 < 2 ^ j) by (apply Z.pow_pos_nonneg; lia).
  assert (Z.pos (digits2_pos (Z.to_pos (2 ^ j))) = j + 1) as ->.
  { apply digits2_pos_unique. rewrite Z2Pos.id by done.
    replace (j + 1 - 1) with j by lia. rewrite Z.pow_add_r by lia. lia. }
  lia.
Qed.

(** The float [2 ^ k]. *)
Lemma SFldexp_SFone (k : Z) :
  -1074 ≤ k ≤ 1023 →
  SFldexp prec emax (SFone prec emax) k =
  S754_finite false (Z.to_pos (2 ^ (52 - Z.max 0 (-1022 - k)))) (Z.max (k - 52) (-1074)).
Proof.
  intros Hk.
  assert (SFone prec emax = S754_finite false 4503599627370496 (-52)) as -> by done.
  set (t := Z.max 0 (-1022 - k)). set (e' := Z.max (k - 52) (-1074)).
  pose proof (binary_normalize_exact false (Z.to_pos (2 ^ (52 - t))) e' t false) as Hn.
  assert (0 < 2 ^ (52 - t)) by (apply Z.pow_pos_nonneg; lia).
  rewrite Z2Pos.id in Hn by done.
  rewrite <- Z.pow_add_r in Hn by lia.
  replace (52 - t + t) with 52 in Hn by lia.
  replace (e' - t) with (-52 + k) in Hn by lia.
  replace (e' <=? 971) with true in Hn by (symmetry; apply Z.leb_le; lia).
  apply Hn; [lia|]. apply canonical_pow2; lia.
Qed.

Lemma SFfrexp_snd (s : bool) (m : positive) (e : Z) :
  valid_binary (S754_finite s m e) = true →
  fexp prec emax (snd (SFfrexp prec emax (S754_finite s m e))) = e ∧
  snd (SFfrexp prec emax (S754_finite s m e)) = Z.pos (digits2_pos m) + e.
Proof.
  intros Hv. simpl in Hv. unfold bounded in Hv. apply andb_true_iff in Hv as [Hc He].
  pose proof Hc as Hc'. unfold canonical_mantissa in Hc'. apply Z.eqb_eq in Hc'.
  apply fexp_canonical in Hc.
  assert (snd (SFfrexp prec emax (S754_finite s m e)) = Z.pos (digits2_pos m) + e) as Hs.
  { unfold SFfrexp, prec. destruct (53 <=? Z.pos (digits2_pos m)) eqn:E; simpl.
    - apply Z.leb_le in E. lia.
    - lia. }
  by rewrite Hs.
Qed.

Lemma Zpos_iter_xO (m p : positive) :
  Z.pos (Pos.iter xO m p) = Z.pos m * 2 ^ Z.pos p.
Proof.
  induction p as [|p IH] using Pos.peano_ind.
  - simpl. lia.
  - rewrite Pos.iter_succ, Pos2Z.inj_succ, Z.pow_succ_r by lia.
    rewrite Pos2Z.inj_xO, IH. lia.
Qed.

Lemma shl_align_fst (m : positive) (e ez : Z) :
  ez ≤ e → Z.pos (fst (shl_align m e ez)) = Z.pos m * 2 ^ (e - ez).
Proof.
  intros Hle. unfold shl_align. destruct (ez - e) as [|p|p] eqn:E; simpl.
  - replace (e - ez) with 0 by lia. simpl. lia.
  - lia.
  - rewrite Zpos_iter_xO. f_equal. f_equal. lia.
Qed.

Lemma SFsub_finite_pos (m : positive) (e : Z) (md : positive) (ed : Z) :
  SFsub prec emax (S754_finite false m e) (S754_finite false md ed) =
  binary_normalize prec emax
    (Z.pos m * 2 ^ (e - Z.min e ed) - Z.pos md * 2 ^ (ed - Z.min e ed)) (Z.min e ed) false.
Proof. unfold SFsub, cond_Zopp. by rewrite !shl_align_fst by lia. Qed.

Lemma SFadd_finite_pos (m : positive) (e : Z) (md : positive) (ed : Z) :
  SFadd prec emax (S754_finite false m e) (S754_finite false md ed) =
  binary_normalize prec emax
    (Z.pos m * 2 ^ (e - Z.min e ed) + Z.pos md * 2 ^ (ed - Z.min e ed)) (Z.min e ed) false.
Proof. unfold SFadd, cond_Zopp. by rewrite !shl_align_fst by lia. Qed.

Lemma valid_finite (s : bool) (m : positive) (e : Z) :
  valid_binary (S754_finite s m e) = true ↔
  ((2 ^ 52 ≤ Z.pos m < 2 ^ 53 ∧ -1074 ≤ e) ∨ (Z.pos m < 2 ^ 52 ∧ e = -1074)) ∧ e ≤ 971.
Proof.
  simpl. unfold bounded. rewrite andb_true_iff, fexp_canonical, Z.leb_le.
  unfold emax, prec. pose proof (digits2_pos_bounds m) as [Hlo Hhi].
  split; intros [Hc He]; (split; [|lia]).
  - destruct Hc as [[Hd ?]|[Hd ?]].
    + left. rewrite Hd in Hlo, Hhi. simpl in Hlo. lia.
    + right. split; [|done].
      assert (2 ^ Z.pos (digits2_pos m) ≤ 2 ^ 52) by (apply Z.pow_le_mono_r; lia). lia.
  - destruct Hc as [[Hm ?]|[Hm ?]].
    + left. split; [|done]. by apply digits2_pos_unique.
    + right. split; [|done].
      destruct (Z.lt_ge_cases (Z.pos (digits2_pos m)) 53); [done|].
      assert (2 ^ 52 ≤ 2 ^ (Z.pos (digits2_pos m) - 1)) by (apply Z.pow_le_mono_r; lia). lia.
Qed.

Lemma canonical_of_bounds (m : positive) (e : Z) :
  (2 ^ 52 ≤ Z.pos m < 2 ^ 53 ∧ -1074 ≤ e) ∨ (Z.pos m < 2 ^ 52 ∧ e = -1074) →
  canonical_mantissa prec emax m e = true.
Proof.
  intros Hb. destruct (Z.le_gt_cases e 971) as [He|He].
  - assert (valid_binary (S754_finite false m e) = true) as Hv by (by apply valid_finite).
    simpl in Hv. unfold bounded in Hv. by apply andb_true_iff in Hv as [? _].
  - assert (valid_binary (S754_finite false m 0) = true) as Hv.
    { apply valid_finite. lia. }
    simpl in Hv. unfold bounded in Hv. apply andb_true_iff in Hv as [Hc _].
    apply fexp_canonical in Hc. apply fexp_canonical. lia.
Qed.

Lemma SFpred_pos_finite (m : positive) (e : Z) :
  valid_binary (S754_finite false m e) = true →
  SFpred_pos prec emax (S754_finite false m e) = pred_pos_explicit m e.
Proof.
  intros Hv. pose proof (SFfrexp_snd false m e Hv) as [Hfe Hsnd].
  pose proof Hv as [Hb He]%valid_finite.
  unfold SFpred_pos.
  assert (Pos.iter xO 1%positive (Z.to_pos prec) = 9007199254740992%positive) as -> by done.
  set (k := if (m =? 4503599627370496)%positive then Z.max (e - 1) (-1074) else e).
  assert ((if (m~0 =? 9007199254740992)%positive
           then SFldexp prec emax (SFone prec emax)
                  (fexp prec emax (snd (SFfrexp prec emax (S754_finite false m e)) - 1))
           else SFulp prec emax (S754_finite false m e))
          = SFldexp prec emax (SFone prec emax) k) as ->.
  { unfold k. destruct (Pos.eqb_spec m 4503599627370496) as [->|Hne].
    - simpl Pos.eqb. cbv iota. f_equal. rewrite Hsnd. simpl digits2_pos.
      unfold fexp, SpecFloat.emin, prec, emax. lia.
    - destruct (Pos.eqb_spec m~0 9007199254740992) as [Heq|_]; [by injection Heq|].
      unfold SFulp. by rewrite Hfe. }
  assert (-1074 ≤ k ≤ e) as Hk.
  { unfold k. destruct (m =? 4503599627370496)%positive; lia. }
  rewrite SFldexp_SFone by lia.
  set (t := Z.max 0 (-1022 - k)).
  assert (0 < 2 ^ (52 - t)) by (apply Z.pow_pos_nonneg; lia).
  rewrite SFsub_finite_pos. rewrite Z2Pos.id by done.
  replace (Z.min e (Z.max (k - 52) (-1074))) with (Z.max (k - 52) (-1074)) by lia.
  rewrite Z.sub_diag, Z.mul_1_r.
  unfold pred_pos_explicit.
  destruct (Pos.eqb_spec m 1) as [->|Hm1].
  { assert (e = -1074) as -> by lia. simpl in k. subst k t. done. }
  destruct (Pos.eqb_spec m 4503599627370496) as [->|Hne]; simpl andb.
  - destruct (Z.ltb_spec (-1074) e) as [Hlt|Hge].
    + subst k. replace (Z.max (e - 1) (-1074)) with (e - 1) in * by lia.
      replace (e - Z.max (e - 1 - 52) (-1074)) with ((52 - t) + 1) by lia.
      rewrite Z.pow_add_r by lia.
      replace (4503599627370496 * (2 ^ (52 - t) * 2 ^ 1) - 2 ^ (52 - t))
        with (cond_Zopp false (9007199254740991 * 2 ^ (52 - t))) by (simpl; lia).
      replace (Z.max (e - 1 - 52) (-1074)) with ((e - 1) - (52 - t)) by lia.
      rewrite binary_normalize_exact; [|lia|apply canonical_of_bounds; simpl; lia].
      by replace (e - 1 <=? 971) with true by (symmetry; apply Z.leb_le; lia).
    + assert (e = -1074) as -> by lia. done.
  - subst k. replace (e - Z.max (e - 52) (-1074)) with (52 - t) by lia.
    replace (Z.pos m * 2 ^ (52 - t) - 2 ^ (52 - t))
      with (cond_Zopp false (Z.pos (m - 1) * 2 ^ (52 - t))) by (simpl; nia).
    replace (Z.max (e - 52) (-1074)) with (e - (52 - t)) by lia.
    rewrite binary_normalize_exact; [|lia|apply canonical_of_bounds; lia].
    by replace (e <=? 971) with true by (symmetry; apply Z.leb_le; lia).
Qed.

Lemma SFsucc_finite_pos (m : positive) (e : Z) :
  valid_binary (S754_finite false m e) = true →
  SFsucc prec emax (S754_finite false m e) = succ_pos_explicit m e.
Proof.
  intros Hv. pose proof (SFfrexp_snd false m e Hv) as [Hfe Hsnd].
  pose proof Hv as [Hb He]%valid_finite.
  unfold SFsucc, SFulp. rewrite Hfe, SFldexp_SFone by lia.
  set (t := Z.max 0 (-1022 - e)).
  assert (0 < 2 ^ (52 - t)) by (apply Z.pow_pos_nonneg; lia).
  rewrite SFadd_finite_pos. rewrite Z2Pos.id by done.
  replace (Z.min e (Z.max (e - 52) (-1074))) with (Z.max (e - 52) (-1074)) by lia.
  rewrite Z.sub_diag, Z.mul_1_r.
  replace (e - Z.max (e - 52) (-1074)) with (52 - t) by lia.
  unfold succ_pos_explicit.
  destruct (Pos.eqb_spec m 9007199254740991) as [->|Hne].
  - replace (9007199254740991 * 2 ^ (52 - t) + 2 ^ (52 - t))
      with (cond_Zopp false (4503599627370496 * 2 ^ (53 - t))).
    2: { replace (53 - t) with ((52 - t) + 1) by lia.
         rewrite Z.pow_add_r by lia. simpl. lia. }
    replace (Z.max (e - 52) (-1074)) with ((e + 1) - (53 - t)) by lia.
    rewrite binary_normalize_exact; [|lia|apply canonical_of_bounds; simpl; lia].
    destruct (Z.ltb_spec e 971), (Z.leb_spec (e + 1) 971); try done; lia.
  - replace (Z.pos m * 2 ^ (52 - t) + 2 ^ (52 - t))
      with (cond_Zopp false (Z.pos (m + 1) * 2 ^ (52 - t))) by (simpl; nia).
    replace (Z.max (e - 52) (-1074)) with (e - (52 - t)) by lia.
    assert (Z.pos m ≠ 9007199254740991) by (intros [= ?]; done).
    rewrite binary_normalize_exact; [|lia|apply canonical_of_bounds; simpl in *; lia].
    by replace (e <=? 971) with true by (symmetry; apply Z.leb_le; lia).
Qed.

Lemma SFopp_involutive (x : spec_float) : SFopp (SFopp x) = x.
Proof. destruct x as [[]|[]| |[] ? ?]; done. Qed.

(** The predecessor of a binary64 number, in closed form. *)
Lemma SF64pred_explicit (x : spec_float) :
  valid_binary x = true → SF64pred x = pred_explicit x.
Proof.
  intros Hv. unfold SF64pred, SFpred.
  destruct x as [s|[]| |[] m e]; try done.
  - change (SFopp (S754_finite true m e)) with (S754_finite false m e).
    by rewrite SFsucc_finite_pos.
  - change (SFopp (S754_finite false m e)) with (S754_finite true m e).
    cbn [SFsucc]. change (SFopp (S754_finite true m e)) with (S754_finite false m e).
    rewrite SFpred_pos_finite by done. apply SFopp_involutive.
Qed.

(** *** The order of binary64 numbers *)

Lemma SFltb_finite (s : bool) (m1 : positive) (e1 : Z) (m2 : positive) (e2 : Z) :
  SFltb (S754_finite s m1 e1) (S754_finite s m2 e2) = true ↔
  if s then e2 < e1 ∨ (e1 = e2 ∧ Z.pos m2 < Z.pos m1)
  else e1 < e2 ∨ (e1 = e2 ∧ Z.pos m1 < Z.pos m2).
Proof.
  unfold SFltb, SFcompare. rewrite Pos.compare_cont_spec. simpl Pos.switch_Eq.
  destruct s; destruct (Z.compare_spec e1 e2); destruct (Pos.compare_spec m1 m2);
    simpl; split; try done; try lia.
Qed.


Lemma SFcompare_refl (x : spec_float) :
  x ≠ S754_nan → SFcompare x x = Some Eq.
Proof.
  destruct x as [s|[]| |[] m e]; try done; intros _; simpl;
    by rewrite Z.compare_refl, Pos.compare_cont_refl.
Qed.

Lemma SFcompare_antisym (x y : spec_float) :
  SFcompare y x = CompOpp <$> SFcompare x y.
Proof.
  destruct x as [sx|[]| |[] mx ex], y as [sy|[]| |[] my ey]; try done;
    try (by destruct sx); try (by destruct sy); simpl;
    rewrite !Pos.compare_cont_spec; simpl Pos.switch_Eq;
    rewrite (Z.compare_antisym ex ey), (Pos.compare_antisym mx my);
    destruct (ex ?= ey); simpl; try done;
    by destruct (mx ?= my)%positive.
Qed.


Lemma SFcompare_Eq_r (x y z : spec_float) :
  SFcompare x y = Some Eq → SFcompare z x = SFcompare z y.
Proof.
  destruct x as [sx|[]| |[] mx ex], y as [sy|[]| |[] my ey]; try done; simpl.
  - destruct (Z.compare_spec ex ey) as [->| |]; try done.
    destruct (Pos.compare_cont Eq mx my) eqn:E; try done.
    rewrite Pos.compare_cont_spec in E.
    by destruct (Pos.compare_spec mx my) as [->| |].
  - destruct (Z.compare_spec ex ey) as [->| |]; try done.
    destruct (Pos.compare_cont Eq mx my) eqn:E; try done.
    rewrite Pos.compare_cont_spec in E.
    by destruct (Pos.compare_spec mx my) as [->| |].
Qed.

Lemma SFltb_not_nan (x y : spec_float) :
  SFltb x y = true → x ≠ S754_nan ∧ y ≠ S754_nan ∧ y ≠ S754_infinity true.
Proof.
  unfold SFltb.
  destruct x as [sx|[]| |[] mx ex], y as [sy|[]| |[] my ey]; try done;
    by destruct sx.
Qed.


(** The predecessor is below. *)
Lemma pred_explicit_lt (x : spec_float) :
  valid_binary x = true → x ≠ S754_nan → x ≠ S754_infinity true →
  SFltb (pred_explicit x) x = true.
Proof.
  intros Hv Hnan Hinf. destruct x as [s|[]| |[] m e]; try done.
  - apply valid_finite in Hv as [Hb He].
    unfold pred_explicit, succ_pos_explicit.
    destruct (Pos.eqb_spec m 9007199254740991) as [->|Hne].
    + destruct (Z.ltb_spec e 971); [|done]. simpl SFopp. apply SFltb_finite. lia.
    + simpl SFopp. apply SFltb_finite. lia.
  - apply valid_finite in Hv as [Hb He].
    unfold pred_explicit, pred_pos_explicit.
    destruct (Pos.eqb_spec m 1) as [->|Hm1]; [done|].
    destruct (Pos.eqb_spec m 4503599627370496) as [->|Hne]; simpl andb.
    + destruct (Z.ltb_spec (-1074) e); apply SFltb_finite; lia.
    + apply SFltb_finite. lia.
Qed.

End binary64.

(** ** The upper bound of a continuous dimension *)

Section upper_bound.
Local Open Scope float_scope.









(** When [low] is not below [x] although it is at most [x], whatever is
    at most [x] is at most [low]. *)
Lemma float_leb_of_not_ltb (z low x : float) :
  (low <=? x) = true → (low <? x) = false → (z <=? x) = true → (z <=? low) = true.
Proof.
  rewrite ltb_spec, !leb_spec. unfold SFleb, SFltb.
  destruct (SFcompare (Prim2SF low) (Prim2SF x)) as [[]|] eqn:E; try done.
  intros _ _. by rewrite (SFcompare_Eq_r _ _ (Prim2SF z) E).
Qed.
End upper_bound.

(** ** More on the order of binary64 numbers *)

Section float_order.
Local Open Scope Z_scope.

Lemma SFltb_trans (x y z : spec_float) :
  SFltb x y = true → SFltb y z = true → SFltb x z = true.
Proof.
  destruct x as [sx|[]| |[] mx ex], y as [sy|[]| |[] my ey], z as [sz|[]| |[] mz ez];
    try done; intros Hxy Hyz;
    apply SFltb_finite in Hxy; apply SFltb_finite in Hyz; apply SFltb_finite; lia.
Qed.
End float_order.

Lemma float_ltb_of_leb (x y : float) :
  (x <=? y)%float = true → (y <=? x)%float = false → (x <? y)%float = true.
Proof.
  rewrite ltb_spec, !leb_spec. unfold SFleb, SFltb.
  rewrite (SFcompare_antisym (Prim2SF x) (Prim2SF y)).
  by destruct (SFcompare (Prim2SF x) (Prim2SF y)) as [[]|].
Qed.

Lemma float_leb_refl_of_leb (x y : float) :
  (y <=? x)%float = true → (x <=? x)%float = true.
Proof.
  rewrite !leb_spec. unfold SFleb. intros Hle.
  rewrite SFcompare_refl; [done|]. intros Hnan. rewrite Hnan in Hle.
  by destruct (Prim2SF y) as [|[]| |[]].
Qed.

(** When [low] is not below [high], it is not below the predecessor of
    [high] either, and [max] keeps it. *)
Lemma py_max_clamped (low high : float) :
  (low <? high)%float = false → py_max low (nextafter_neg_inf high) = low.
Proof.
  intros Hlt. unfold py_max, nextafter_neg_inf.
  destruct (low <? next_down high)%float eqn:E; [|done]. exfalso.
  rewrite ltb_spec in Hlt, E. rewrite next_down_spec in E.
  rewrite SF64pred_explicit in E by apply Prim2SF_valid.
  pose proof (Prim2SF_valid high) as Hv.
  destruct (Prim2SF high) as [s|[]| |s m e] eqn:Eh.
  - assert (SFltb (pred_explicit (S754_zero s)) (S754_zero s) = true) as Hp by done.
    by rewrite (SFltb_trans _ _ _ E Hp) in Hlt.
  - by apply SFltb_not_nan in E as (_ & _ & ?).
  - assert (SFltb (pred_explicit (S754_infinity false)) (S754_infinity false) = true)
      as Hp by done.
    by rewrite (SFltb_trans _ _ _ E Hp) in Hlt.
  - by apply SFltb_not_nan in E as (_ & ? & _).
  - assert (SFltb (pred_explicit (S754_finite s m e)) (S754_finite s m e) = true) as Hp
      by (by apply pred_explicit_lt).
    by rewrite (SFltb_trans _ _ _ E Hp) in Hlt.
Qed.

Lemma float_leb_not_ltb (x y : float) :
  (y <=? x)%float = true → (x <? y)%float = false.
Proof.
  rewrite ltb_spec, leb_spec. unfold SFleb, SFltb.
  rewrite (SFcompare_antisym (Prim2SF x) (Prim2SF y)).
  by destruct (SFcompare (Prim2SF x) (Prim2SF y)) as [[]|].
Qed.

(** ** The upper bound of a continuous dimension *)

Section real_dimension.
Context `{SkoptSpace} `{DictOrder}.

(** The call that builds the dimension of a continuous distribution. *)
Lemma dimension_of_continuous (log : bool) (low high : float) :
  dimension_of (if log then LogUniformDistribution low high
                else UniformDistribution low high)
  = space_Real low (py_max low (nextafter_neg_inf high))
      (if log then "log-uniform" else "uniform").
Proof. by destruct log. Qed.


End real_dimension.



(** ** The module at work on the example study *)

(** Floor division of Python floats rounds toward minus infinity, and
    raises on a zero divisor. *)
Example float_floordiv_examples :
  float_floordiv 7 2 = Ok 3%float ∧
  float_floordiv (-7) 2 = Ok (-4)%float ∧
  float_floordiv 0.5 2 = Ok 0%float ∧
  float_floordiv 10 2.5 = Ok 4%float ∧
  float_floordiv 6 0 = Raise ZeroDivisionError.
Proof. repeat split; vm_compute; reflexivity. Qed.

(** An int is coerced to the nearest float; one that is beyond the floats
    makes the arithmetic raise. *)
Example as_float_examples :
  as_float (PyInt 3) = Ok 3%float ∧
  as_float (PyInt (2 ^ 53 + 1)) = Ok 9007199254740992%float ∧
  as_float (PyInt (10 ^ 400)) = Raise OverflowError ∧
  as_float (PyStr "3") = Raise TypeError.
Proof. repeat split; vm_compute; reflexivity. Qed.

(** The trial that recorded [x = 15] is not compatible with the space in
    which [x] ranges over [0, 10); the trial inside the space is; on the
    trial that recorded a choice outside the choices the check raises. *)
Example is_compatible_examples :
  @_is_compatible optuna_distributions dict_order example.optimizer example.trial0
  = Ok true ∧
  @_is_compatible optuna_distributions dict_order example.optimizer example.trial1
  = Ok false ∧
  @_is_compatible optuna_distributions dict_order example.optimizer example.stale_trial
  = Raise ValueError.
Proof. repeat split; vm_compute; reflexivity. Qed.

(** [tell] raises on the study that holds a complete trial without a value
    (the [assert] of the conversion) and on the study that holds the stale
    trial (the conversion of its choice); the backend is told nothing. *)
Example tell_raises_examples :
  @tell optuna_distributions dict_order example.optimizer example_more.broken_study []
  = (Raise AssertionError, []) ∧
  @tell optuna_distributions dict_order example.optimizer example.stale_study []
  = (Raise ValueError, []).
Proof. split; vm_compute; reflexivity. Qed.

(** A whole call of [sample_relative]: the optimizer is constructed over the
    three dimensions in the order of the names, it is told the one
    compatible complete trial with the objective negated, and the point it
    proposes is decoded. *)
Example sample_relative_example :
  @sample_relative optuna_distributions skopt_space dict_order example.skopt_ask
    {| _skopt_kwargs := ∅; _warn_independent_sampling := true |}
    example.study example.trial2 example.search_space []
  = (Ok (<["x" := PyFloat 2.5]> (<["d" := PyFloat 4]> (<["c" := PyInt 1]> ∅))),
     [skopt.Optimizer
        [space.Categorical [PyStr "a"; PyStr "b"];
         space.Integer (PyInt 0) (PyFloat 5);
         space.Real 0 (py_max 0 (nextafter_neg_inf 10)) "uniform"] ∅;
      skopt.tell [[PyStr "b"; PyFloat 3; PyFloat 1]] [(-5)%float];
      skopt.ask]).
Proof. vm_compute. reflexivity. Qed.

(** [SkoptSampler.__init__] drops the key ["dimensions"] of the keyword
    arguments. *)
Example SkoptSampler_init_example :
  _skopt_kwargs (SkoptSampler_init true
                   (Some (<["dimensions" := PyNone]> (<["n_initial_points" := PyInt 1]> ∅))))
  = <["n_initial_points" := PyInt 1]> ∅.
Proof. vm_compute. reflexivity. Qed.

(** [ask] on the example: the categorical choice ["b"] becomes its position
    1, the discrete value 2 becomes 4.0, the continuous value is kept. *)
Lemma ask_returns_internal_repr_example :
  ∃ params,
    @ask optuna_distributions dict_order example.skopt_ask example.optimizer []
    = (Ok params, [skopt.ask]) ∧
    params !! "c" = Some (PyInt 1) ∧
    params !! "d" = Some (PyFloat 4) ∧
    params !! "x" = Some (PyFloat 2.5).
Proof.
  destruct (@ask_returns_internal_repr optuna_distributions dict_order
              example.skopt_ask example.optimizer [])
    as (params & Hask & Hpos & _); [vm_compute; reflexivity..|].
  exists params. split; [exact Hask|].
  pose proof (Hpos 0%nat "c" (CategoricalDistribution [PyStr "a"; PyStr "b"]) (PyStr "b")
                eq_refl eq_refl) as (ic & Hic & Hc).
  pose proof (Hpos 1%nat "d" (DiscreteUniformDistribution 0 10 2) (PyInt 2)
                eq_refl eq_refl) as (x & id & Hx & Hid & Hd).
  pose proof (Hpos 2%nat "x" (UniformDistribution 0 10) (PyFloat 2.5)
                eq_refl eq_refl) as (ix & Hix & Hx').
  injection Hx as <-. injection Hic as <-. injection Hid as <-. injection Hix as <-.
  split; [exact Hc|]. split; [exact Hd|exact Hx'].
Defined.



Lemma discrete_rescale_example :
  ∃ pv y raw x r,
    @_complete_trial_to_skopt_observation dict_order
      example.optimizer example.study example.trial0 = Ok (pv, y) ∧
    params example.trial0 !! "d" = Some raw ∧ as_float raw = Ok x ∧
    float_floordiv (x - 0) 2 = Ok r ∧ pv !! 1%nat = Some (PyFloat r).
Proof.
  exact (proj1 (proj1 discrete_rescale optuna_distributions dict_order example.skopt_ask
    example.optimizer example.study example.trial0 [] 1%nat "d" 0%float 10%float 2%float
    ltac:(vm_compute; reflexivity))
    ltac:(vm_compute; reflexivity) ltac:(vm_compute; reflexivity)
    ltac:(vm_compute; reflexivity)).
Defined.

Lemma tell_objective_sign_example :
  ∃ xs ys,
    @tell optuna_distributions dict_order example.optimizer example.study []
    = (Ok tt, [] ++ [skopt.tell xs ys]) ∧
    Forall2 (λ trial y, ∃ v, value trial = Some v ∧
               y = match direction example.study with
                   | MAXIMIZE => (- v)%float
                   | MINIMIZE | NOT_SET => v
                   end)
      (@replayed optuna_distributions dict_order example.optimizer example.study) ys.
Proof.
  exact (proj1 (@tell_objective_sign optuna_distributions dict_order
                  example.optimizer example.study [])
    ltac:(vm_compute; reflexivity) ltac:(vm_compute; reflexivity)
    ltac:(vm_compute; reflexivity)).
Defined.

Lemma positions_follow_sorted_names_example :
  (sorted (@items dict_order example.search_space)).*1 = ["c"; "d"; "x"] ∧
  StronglySorted (λ a b, String.ltb a b = true)
    (sorted (@items dict_order example.search_space)).*1.
Proof.
  split; [vm_compute; reflexivity|].
  exact (proj1 (@positions_follow_sorted_names optuna_distributions skopt_space dict_order
    example.skopt_ask example.search_space ∅ []
    [skopt.Optimizer
       [space.Categorical [PyStr "a"; PyStr "b"];
        space.Integer (PyInt 0) (PyFloat 5);
        space.Real 0 (py_max 0 (nextafter_neg_inf 10)) "uniform"] ∅]
    example.optimizer ltac:(vm_compute; reflexivity))).
Defined.



(** * Further properties of the module *)

(** ** What a call does to the backend, case by case *)

Lemma sample_relative_cases `{BaseDistribution} `{SkoptSpace} `{DictOrder}
    (skopt_ask : list skopt.event → list pyvalue)
    (self : SkoptSampler) (study : InTrialStudy) (trial : FrozenTrial)
    (search_space : gmap string distribution) (tr : list skopt.event) :
  (search_space = ∅ ∧
   sample_relative skopt_ask self study trial search_space tr = (Ok ∅, tr)) ∨
  (search_space ≠ ∅ ∧
   ((∃ e, Optimizer_init search_space (_skopt_kwargs self) tr = (Raise e, tr) ∧
          sample_relative skopt_ask self study trial search_space tr = (Raise e, tr)) ∨
    (∃ dimensions,
       Forall2 (λ it dimension, dimension_of it.2 = Ok dimension)
         (sorted (items search_space)) dimensions ∧
       ((∃ e, tell {| _search_space := search_space |} study
                (tr ++ [skopt.Optimizer dimensions (_skopt_kwargs self)]) =
                (Raise e, tr ++ [skopt.Optimizer dimensions (_skopt_kwargs self)]) ∧
              sample_relative skopt_ask self study trial search_space tr =
                (Raise e, tr ++ [skopt.Optimizer dimensions (_skopt_kwargs self)])) ∨
        (∃ xs ys,
           tell {| _search_space := search_space |} study
             (tr ++ [skopt.Optimizer dimensions (_skopt_kwargs self)]) =
             (Ok tt, tr ++ [skopt.Optimizer dimensions (_skopt_kwargs self);
                            skopt.tell xs ys]) ∧
           sample_relative skopt_ask self study trial search_space tr =
             ask skopt_ask {| _search_space := search_space |}
               (tr ++ [skopt.Optimizer dimensions (_skopt_kwargs self);
                       skopt.tell xs ys])))))).
Proof.
  unfold sample_relative. case_bool_decide as Hsize.
  { left. by apply map_size_empty_inv in Hsize as ->. }
  right. split; [by intros ->|].
  unfold mbind, backend_mbind, backend_bind.
  destruct (Optimizer_init_cases search_space (_skopt_kwargs self) tr)
    as [(e & _ & _ & _ & He & _)|(dims & Hdims & Hinit)].
  - left. exists e. by rewrite He.
  - right. exists dims. split; [done|]. rewrite Hinit.
    destruct (tell_cases {| _search_space := search_space |} study
                (tr ++ [skopt.Optimizer dims (_skopt_kwargs self)]))
      as [[e He]|(xs & ys & Htell)].
    + left. exists e. by rewrite He.
    + right. exists xs, ys. rewrite Htell.
      rewrite <- app_assoc in Htell |- *. by split.
Qed.

Lemma tell_batch `{BaseDistribution} `{DictOrder} (self : _Optimizer)
    (study : InTrialStudy) (tr tr' : list skopt.event) :
  tell self study tr = (Ok tt, tr') →
  ∃ obs,
    Forall2 (λ t o, _complete_trial_to_skopt_observation self study t = Ok o)
      (replayed self study) obs ∧
    tr' = tr ++ [skopt.tell obs.*1 obs.*2].
Proof.
  unfold tell, mbind, backend_mbind, backend_bind, backend_lift, backend_call.
  destruct (tell_loop self study (trials study) [] []) as [[xs ys]|] eqn:E; [|done].
  apply tell_loop_Ok in E as (_ & obs & Hobs & -> & ->). simpl.
  intros [= <-]. by exists obs.
Qed.

(** X1: when [_Optimizer.__init__] returns, every distribution of the
    search space is of one of the five kinds, no discrete step is zero and
    no continuous distribution has [high <= low]; it has made one call, the
    construction of [skopt.Optimizer] with the given keyword arguments and
    one dimension for each parameter, and the optimizer keeps the search
    space it was given. *)
Theorem Optimizer_init_returns `{SkoptSpace} `{DictOrder}
    (search_space : gmap string distribution) (skopt_kwargs : gmap string pyvalue)
    (tr tr' : list skopt.event) (self : _Optimizer) :
  Optimizer_init search_space skopt_kwargs tr = (Ok self, tr') →
  all_supported search_space = true ∧
  nonzero_steps search_space = true ∧
  (∀ name (log : bool) low high,
     search_space !! name = Some (if log then LogUniformDistribution low high
                                  else UniformDistribution low high) →
     (high <=? low)%float = false) ∧
  _search_space self = search_space ∧
  ∃ dimensions,
    tr' = tr ++ [skopt.Optimizer dimensions skopt_kwargs] ∧
    length dimensions = size search_space.
Proof.
  intros (dims & Hdims & -> & ->)%Optimizer_init_Ok.
  assert (∀ name d, search_space !! name = Some d → ∃ dim, dimension_of d = Ok dim)
    as Hdim.
  { intros name d [i Hi]%elem_of_sorted_items%list_elem_of_lookup.
    destruct (Forall2_lookup_l _ _ _ _ _ Hdims Hi) as (dim & _ & Hd). by exists dim. }
  split.
  { unfold all_supported. apply forallb_forall. intros [n d] Hin%list_elem_of_In.
    apply elem_of_map_to_list, Hdim in Hin as [dim Hd].
    by apply dimension_of_supported in Hd. }
  split.
  { unfold nonzero_steps. apply forallb_forall. intros [n d] Hin%list_elem_of_In.
    apply elem_of_map_to_list, Hdim in Hin as [dim Hd]. simpl.
    destruct d as [| | |low high q| |]; try done. simpl in Hd.
    apply result_bind_Ok in Hd as (count & Hcount & _).
    unfold float_floordiv in Hcount. by destruct (q =? 0)%float. }
  split.
  { intros name log low high [dim Hd]%Hdim.
    rewrite dimension_of_continuous in Hd. apply space_Real_Ok in Hd as [_ Hle].
    destruct (high <=? low)%float eqn:E; [|done].
    rewrite (py_max_clamped low high) in Hle by (by apply float_leb_not_ltb).
    by rewrite (float_leb_refl_of_leb low high E) in Hle. }
  split; [done|]. exists dims. split; [done|].
  by rewrite <- (Forall2_length _ _ _ Hdims), length_sorted_items.
Qed.

(** X2: when the search space holds a distribution of an unsupported kind,
    [sample_relative] raises without any call on the backend: the failure of
    [_Optimizer.__init__] reaches the caller, and nothing is constructed, told
    or asked. *)
Theorem sample_relative_unsupported `{BaseDistribution} `{SkoptSpace} `{DictOrder}
    (skopt_ask : list skopt.event → list pyvalue)
    (self : SkoptSampler) (study : InTrialStudy) (trial : FrozenTrial)
    (search_space : gmap string distribution) (tr : list skopt.event)
    (name kind : string) :
  search_space !! name = Some (UnknownDistribution kind) →
  ∃ e, sample_relative skopt_ask self study trial search_space tr = (Raise e, tr).
Proof.
  intros Hname.
  destruct (sample_relative_cases skopt_ask self study trial search_space tr)
    as [[-> _]|[_ [(e & _ & He)|(dims & Hdims & _)]]].
  - by rewrite lookup_empty in Hname.
  - by exists e.
  - apply elem_of_sorted_items, list_elem_of_lookup in Hname as [i Hi].
    by destruct (Forall2_lookup_l _ _ _ _ _ Hdims Hi) as (dim & _ & Hdim).
Qed.


Lemma SkoptSampler_init_kwargs (warn : bool) (skopt_kwargs : option (gmap string pyvalue))
    (key : string) :
  _skopt_kwargs (SkoptSampler_init warn skopt_kwargs) !! key =
  if decide (key = "dimensions") then None else default ∅ skopt_kwargs !! key.
Proof.
  unfold SkoptSampler_init. simpl. case_bool_decide as Hd; case_decide as Hk; subst.
  - apply lookup_delete_eq.
  - by rewrite lookup_delete_ne.
  - by apply eq_None_not_Some.
  - done.
Qed.

(** X4: the keyword arguments that [SkoptSampler.__init__] stores, and that
    [sample_relative] hands to [skopt.Optimizer], never hold the key
    ["dimensions"], and hold every other key of the given arguments with its
    value: whatever construction of [skopt.Optimizer] a call of
    [sample_relative] adds to the trace carries such arguments. *)
Theorem sample_relative_drops_dimensions_kwarg
    `{BaseDistribution} `{SkoptSpace} `{DictOrder}
    (skopt_ask : list skopt.event → list pyvalue)
    (warn : bool) (skopt_kwargs : option (gmap string pyvalue))
    (study : InTrialStudy) (trial : FrozenTrial)
    (search_space : gmap string distribution) (tr rest : list skopt.event)
    (r : result (gmap string pyvalue))
    (dimensions : list space.dimension) (kwargs : gmap string pyvalue) :
  sample_relative skopt_ask (SkoptSampler_init warn skopt_kwargs) study trial
    search_space tr = (r, tr ++ skopt.Optimizer dimensions kwargs :: rest) →
  kwargs !! "dimensions" = None ∧
  ∀ key, key ≠ "dimensions" → kwargs !! key = default ∅ skopt_kwargs !! key.
Proof.
  intros Hr.
  assert (kwargs = _skopt_kwargs (SkoptSampler_init warn skopt_kwargs)) as ->.
  { destruct (sample_relative_cases skopt_ask (SkoptSampler_init warn skopt_kwargs)
                study trial search_space tr)
      as [[_ Hr']|[_ [(e & _ & Hr')|(dims & _ & [(e & _ & Hr')|(xs & ys & _ & Hr')])]]];
      rewrite Hr' in Hr; [| | |rewrite ask_unfold in Hr].
    - injection Hr as _ Heq. rewrite <- (app_nil_r tr) in Heq at 1.
      by apply app_inv_head in Heq.
    - injection Hr as _ Heq. rewrite <- (app_nil_r tr) in Heq at 1.
      by apply app_inv_head in Heq.
    - injection Hr as _ Heq. apply app_inv_head in Heq. by injection Heq.
    - injection Hr as _ Heq. rewrite <- app_assoc in Heq.
      apply app_inv_head in Heq. by injection Heq. }
  split.
  - rewrite SkoptSampler_init_kwargs. by rewrite decide_True.
  - intros key Hkey. rewrite SkoptSampler_init_kwargs. by rewrite decide_False.
Qed.

(** ** Exceptions of [tell] *)




Section tell_raises.
Context `{BaseDistribution} `{DictOrder}.

End tell_raises.


(** X6: the batch that a returning [tell] hands to the backend is well
    shaped: it holds one point and one objective for each replayed trial,
    and every point has one coordinate for each parameter of the search
    space. *)
Theorem tell_batch_shape `{BaseDistribution} `{DictOrder} (self : _Optimizer)
    (study : InTrialStudy) (tr tr' : list skopt.event) :
  tell self study tr = (Ok tt, tr') →
  ∃ xs ys, tr' = tr ++ [skopt.tell xs ys] ∧
    length xs = length (replayed self study) ∧
    length ys = length (replayed self study) ∧
    Forall (λ x, length x = size (_search_space self)) xs.
Proof.
  intros (obs & Hobs & ->)%tell_batch.
  exists obs.*1, obs.*2. split; [done|].
  rewrite !length_fmap, (Forall2_length _ _ _ Hobs). split; [done|]. split; [done|].
  apply Forall_fmap, Forall_forall. intros [pv y] Hin.
  apply list_elem_of_lookup in Hin as [i Hi].
  destruct (Forall2_lookup_r _ _ _ _ _ Hobs Hi) as (t & _ & Ho).
  apply observation_positions in Ho. simpl.
  by rewrite <- (Forall2_length _ _ _ Ho), length_sorted_items.
Qed.

(** X16: an exception of [_is_compatible] on any trial of the study in
    state [COMPLETE] makes [tell] raise: the trial is not skipped, and the
    backend is told nothing, whatever the other trials are. *)
Theorem tell_raises_when_check_raises `{BaseDistribution} `{DictOrder}
    (self : _Optimizer) (study : InTrialStudy) (tr : list skopt.event)
    (trial : FrozenTrial) (e : exn) :
  trial ∈ trials study → state trial = COMPLETE →
  _is_compatible self trial = Raise e →
  ∃ e', tell self study tr = (Raise e', tr).
Proof.
  intros Hin Hs Hc. unfold tell, mbind, backend_mbind, backend_bind, backend_lift.
  destruct (tell_loop self study (trials study) [] []) as [[xs ys]|e'] eqn:E;
    [|by exists e'].
  apply tell_loop_Ok in E as [Hall _]. rewrite Forall_forall in Hall.
  specialize (Hall trial Hin Hs). by rewrite Hc in Hall.
Qed.

(** ** More on [ask] *)


Section ask_more.
Context `{BaseDistribution} `{DictOrder}.
Implicit Types (l : list ((string * distribution) * pyvalue)).



Lemma ask_loop_dom_eq l (acc params : gmap string pyvalue) :
  ask_loop l acc = Ok params → dom params = dom acc ∪ list_to_set l.*1.*1.
Proof.
  revert acc. induction l as [|[[n d] v] l IH]; intros acc; simpl.
  - intros [= <-]. by rewrite union_empty_r_L.
  - intros (v' & _ & (internal & _ & Hl)%result_bind_Ok)%result_bind_Ok.
    rewrite (IH _ Hl), dom_insert_L.
    by rewrite (comm_L (∪) {[n]} (dom acc)), <- (assoc_L (∪)).
Qed.
End ask_more.


(** X8: the dict that [ask] returns has a value for the first names of the
    sorted search space, as many as the point has coordinates: its names are
    names of the search space, it has [min (len(point), len(search_space))]
    entries, and when the point has at least one coordinate for each
    parameter every parameter of the search space gets a value. *)
Theorem ask_names `{BaseDistribution} `{DictOrder}
    (skopt_ask : list skopt.event → list pyvalue)
    (self : _Optimizer) (tr tr' : list skopt.event) (params : gmap string pyvalue) :
  ask skopt_ask self tr = (Ok params, tr') →
  dom params ⊆ dom (_search_space self) ∧
  size params =
    length (skopt_ask (tr ++ [skopt.ask])) `min` size (_search_space self) ∧
  (size (_search_space self) ≤ length (skopt_ask (tr ++ [skopt.ask])) →
   dom params = dom (_search_space self)).
Proof.
  rewrite ask_unfold. intros [= Hl _].
  pose proof (ask_loop_dom_eq _ _ _ Hl) as Hdom.
  rewrite dom_empty_L, (left_id_L ∅ (∪)) in Hdom.
  set (point := skopt_ask (tr ++ [skopt.ask])) in *.
  assert (size params = length point `min` size (_search_space self)) as Hsize.
  { rewrite <- size_dom, Hdom, size_list_to_set by apply NoDup_zip_sorted_items.
    rewrite !length_fmap, length_zip, length_sorted_items. lia. }
  assert (dom params ⊆ dom (_search_space self)) as Hsub.
  { intros name. rewrite Hdom, elem_of_list_to_set, fst_zip_prefix, fmap_take.
    intros Hin%(subseteq_take _ _). apply list_elem_of_fmap in Hin as ([n d] & -> & Hin).
    apply elem_of_sorted_items in Hin. by apply elem_of_dom. }
  split; [done|]. split; [done|].
  intros Hlen. apply set_subseteq_size_eq; [done|]. rewrite !size_dom. lia.
Qed.

(** ** The search space and the trials *)

Lemma infer_loop_all_dropped `{BaseDistribution} (l : list (string * distribution))
    (acc : gmap string distribution) :
  Forall (λ it, single it.2 && negb (is_categorical it.2) = true) l →
  infer_loop l acc = acc.
Proof.
  induction 1 as [|[n d] l Hd _ IH]; simpl; [done|]. simpl in Hd. by rewrite Hd.
Qed.

(** X9: when every distribution that the trials of the study share is
    single-valued and not categorical, and in particular when they share
    none, as on the first trial, [infer_relative_search_space] returns the
    empty search space and [sample_relative] on it returns the empty dict
    without any call on the backend: every parameter is left to the
    independent sampler. *)
Theorem nothing_to_sample_relatively `{BaseDistribution} `{SkoptSpace} `{DictOrder}
    (product_search_space : InTrialStudy → gmap string distribution)
    (skopt_ask : list skopt.event → list pyvalue)
    (self : SkoptSampler) (study : InTrialStudy) (trial : FrozenTrial)
    (tr : list skopt.event) :
  forallb (λ it : string * distribution, single it.2 && negb (is_categorical it.2))
    (map_to_list (product_search_space study)) = true →
  infer_relative_search_space product_search_space self study trial = ∅ ∧
  sample_relative skopt_ask self study trial
    (infer_relative_search_space product_search_space self study trial) tr = (Ok ∅, tr).
Proof.
  intros Hall.
  assert (infer_relative_search_space product_search_space self study trial = ∅) as ->.
  { unfold infer_relative_search_space. apply infer_loop_all_dropped, Forall_forall.
    intros it Hin. rewrite forallb_forall in Hall. apply Hall, list_elem_of_In.
    by rewrite <- (items_Permutation (product_search_space study)). }
  split; [done|].
  unfold sample_relative. by rewrite map_size_empty, bool_decide_eq_true_2.
Qed.

(** X10: a trial that is compatible with a search space is compatible with
    every part of it: removing parameters from the search space never turns
    a compatible trial into an incompatible one. *)
Theorem is_compatible_subspace `{BaseDistribution} `{DictOrder}
    (self self' : _Optimizer) (trial : FrozenTrial) :
  _search_space self' ⊆ _search_space self →
  _is_compatible self trial = Ok true →
  _is_compatible self' trial = Ok true.
Proof.
  rewrite !_is_compatible_true. intros Hsub Hc name d Hd.
  apply Hc. by eapply lookup_weaken.
Qed.

Lemma is_compatible_loop_with_param `{BaseDistribution}
    (l : list (string * distribution)) (trial : FrozenTrial) (name : string)
    (v : pyvalue) :
  name ∉ l.*1 →
  is_compatible_loop l (with_param trial name v) = is_compatible_loop l trial.
Proof.
  induction l as [|[n d] l IH]; simpl; [done|].
  intros [Hne Hl]%not_elem_of_cons. rewrite lookup_insert_ne by done.
  destruct (params trial !! n) as [w|]; [|done].
  destruct (to_internal_repr d w) as [i|]; simpl; [|done].
  destruct (_contains d i) as [[]|]; simpl; [by apply IH|done..].
Qed.

Lemma observation_loop_with_param (l : list (string * distribution))
    (trial : FrozenTrial) (name : string) (v : pyvalue) (acc : list pyvalue) :
  name ∉ l.*1 →
  observation_loop l (with_param trial name v) acc = observation_loop l trial acc.
Proof.
  revert acc. induction l as [|[n d] l IH]; intros acc; simpl; [done|].
  intros [Hne Hl]%not_elem_of_cons. rewrite lookup_insert_ne by done.
  destruct (params trial !! n) as [raw|]; simpl; [|done].
  destruct (observation_value d raw); simpl; [|done]. by apply IH.
Qed.

Lemma not_elem_of_items_fst `{DictOrder} (m : gmap string distribution) (name : string) :
  m !! name = None → name ∉ (items m).*1.
Proof.
  intros Hnone ([n x] & -> & Hin%elem_of_items)%list_elem_of_fmap.
  simpl in Hnone. congruence.
Qed.

(** X11: a parameter that a trial recorded under a name outside the search
    space is ignored: it changes neither the outcome of [_is_compatible] nor
    the observation made of the trial. *)
Theorem outside_parameter_ignored `{BaseDistribution} `{DictOrder} (self : _Optimizer)
    (study : InTrialStudy) (trial : FrozenTrial) (name : string) (v : pyvalue) :
  _search_space self !! name = None →
  _is_compatible self (with_param trial name v) = _is_compatible self trial ∧
  _complete_trial_to_skopt_observation self study (with_param trial name v) =
  _complete_trial_to_skopt_observation self study trial.
Proof.
  intros Hnone. split.
  - unfold _is_compatible. apply is_compatible_loop_with_param.
    by apply not_elem_of_items_fst.
  - unfold _complete_trial_to_skopt_observation.
    rewrite observation_loop_with_param; [done|].
    rewrite sorted_Permutation. by apply not_elem_of_items_fst.
Qed.

(** X12: the point of an observation holds, at the position of every
    parameter whose distribution is not discrete, the value that the trial
    recorded for the parameter, as it was recorded: only the values of
    discrete parameters are rescaled, and a categorical choice is handed to
    the backend as the choice itself. *)
Theorem observation_keeps_recorded_values `{DictOrder} (self : _Optimizer)
    (study : InTrialStudy) (trial : FrozenTrial) (pv : list pyvalue) (y : float)
    (i : nat) (name : string) (d : distribution) :
  _complete_trial_to_skopt_observation self study trial = Ok (pv, y) →
  sorted (items (_search_space self)) !! i = Some (name, d) →
  is_discrete d = false →
  ∃ v, params trial !! name = Some v ∧ pv !! i = Some v.
Proof.
  intros Ho Hi Hd. unfold _complete_trial_to_skopt_observation in Ho.
  apply result_bind_Ok in Ho as (pv' & Hpv & (w & _ & [= <- _])%result_bind_Ok).
  apply observation_loop_Ok in Hpv as (vs & Hpos & ->).
  destruct (Forall2_lookup_l _ _ _ _ _ Hpos Hi) as (v & Hv & raw & Hraw & Hval).
  simpl in *. exists raw. split; [done|].
  destruct d; try done; by injection Hval as <-.
Qed.

(** X13: whenever [sample_relative] returns on a search space that is not
    empty, it has made the three calls, and what went through them fits
    together: the optimizer was constructed over the dimensions of the
    sorted search space, it was told the observations of exactly the
    replayed trials, and the dict returned decodes, position by position,
    the point that the backend proposed after these calls; the dict names
    parameters of the search space only. *)
Theorem sample_relative_returns `{BaseDistribution} `{SkoptSpace} `{DictOrder}
    (skopt_ask : list skopt.event → list pyvalue)
    (self : SkoptSampler) (study : InTrialStudy) (trial : FrozenTrial)
    (search_space : gmap string distribution) (tr tr' : list skopt.event)
    (params : gmap string pyvalue) :
  search_space ≠ ∅ →
  sample_relative skopt_ask self study trial search_space tr = (Ok params, tr') →
  ∃ dimensions obs,
    tr' = tr ++ [skopt.Optimizer dimensions (_skopt_kwargs self);
                 skopt.tell obs.*1 obs.*2; skopt.ask] ∧
    Forall2 (λ it dimension, dimension_of it.2 = Ok dimension)
      (sorted (items search_space)) dimensions ∧
    Forall2 (λ t o, _complete_trial_to_skopt_observation
                      {| _search_space := search_space |} study t = Ok o)
      (replayed {| _search_space := search_space |} study) obs ∧
    (∀ i name d v,
       sorted (items search_space) !! i = Some (name, d) →
       skopt_ask tr' !! i = Some v →
       ∃ v' internal, ask_value d v = Ok v' ∧ to_internal_repr d v' = Ok internal ∧
         params !! name = Some internal) ∧
    dom params ⊆ dom search_space.
Proof.
  intros Hne Hr.
  destruct (sample_relative_cases skopt_ask self study trial search_space tr)
    as [[-> _]|[_ [(e & _ & He)|(dims & Hdims & [(e & _ & He)|(xs & ys & Htell & Hask)])]]];
    [done|congruence..|].
  rewrite Hask in Hr.
  apply tell_batch in Htell as (obs & Hobs & Heq).
  rewrite <- app_assoc in Heq. apply app_inv_head in Heq. injection Heq as -> ->.
  pose proof (ask_spec _ _ _ _ _ Hr) as (-> & Hpos & Hdom).
  exists dims, obs. split; [by rewrite <- app_assoc|]. split; [done|].
  split; [done|]. split; [exact Hpos|].
  intros name [i' (d & v & Hi & _)]%elem_of_dom%Hdom.
  apply elem_of_dom. exists d. apply elem_of_sorted_items.
  by apply list_elem_of_lookup_2 in Hi.
Qed.

(** ** [sample_independent] *)

(** X14: [sample_independent] returns what the independent sampler returns,
    and it logs one warning, which names the parameter and the number of
    the trial, exactly when warnings are switched on and some trial of the
    study is complete; on the first trial of a study, where no trial is
    complete, it logs nothing. *)
Theorem sample_independent_warns
    (independent_sample : InTrialStudy → FrozenTrial → string → distribution → float)
    (self : SkoptSampler) (study : InTrialStudy) (trial : FrozenTrial)
    (param_name : string) (param_distribution : distribution) (logger : list string) :
  (sample_independent independent_sample self study trial param_name
     param_distribution logger).1
  = independent_sample study trial param_name param_distribution ∧
  (_warn_independent_sampling self = true ∧
   (∃ t, t ∈ trials study ∧ state t = COMPLETE) →
   (sample_independent independent_sample self study trial param_name
      param_distribution logger).2
   = logger ++ [warning_message param_name (number trial)]) ∧
  (_warn_independent_sampling self = false ∨
   (∀ t, t ∈ trials study → state t ≠ COMPLETE) →
   (sample_independent independent_sample self study trial param_name
      param_distribution logger).2
   = logger).
Proof.
  unfold sample_independent. simpl. split; [done|]. split.
  - intros [-> (t & Hin & Hs)]. rewrite bool_decide_eq_true_2; [done|].
    assert (t ∈ filter (λ t, state t = COMPLETE) (trials study)) as Hf
      by (by apply list_elem_of_filter).
    destruct (filter _ (trials study)); [by apply elem_of_nil in Hf|simpl; lia].
  - intros [->|Hnone]; [done|]. destruct (_warn_independent_sampling self); [|done].
    rewrite bool_decide_eq_false_2; [done|].
    destruct (filter _ (trials study)) as [|t l] eqn:E; [simpl; lia|].
    assert (t ∈ filter (λ t, state t = COMPLETE) (trials study)) as Hf
      by (rewrite E; by left).
    apply list_elem_of_filter in Hf as [Hs Hin]. by destruct (Hnone t Hin).
Qed.

(** ** Continuous distributions without an interior *)

(** X15: a uniform or log-uniform distribution whose [high] is not above
    its [low] (a single-valued one, with [low = high], for instance) gets no
    dimension: [max(low, np.nextafter(high, -inf))] is [low], skopt refuses
    the interval from [low] to [low], and [_Optimizer.__init__] raises
    without constructing the optimizer, as does [sample_relative] without
    any call on the backend.  Such a distribution must not reach the search
    space. *)
Theorem continuous_without_interior_refused
    `{BaseDistribution} `{SkoptSpace} `{DictOrder}
    (skopt_ask : list skopt.event → list pyvalue)
    (self : SkoptSampler) (study : InTrialStudy) (trial : FrozenTrial)
    (search_space : gmap string distribution) (tr : list skopt.event)
    (name : string) (log : bool) (low high : float) :
  search_space !! name
    = Some (if log then LogUniformDistribution low high
            else UniformDistribution low high) →
  (high <=? low)%float = true →
  py_max low (nextafter_neg_inf high) = low ∧
  (∃ e, Optimizer_init search_space (_skopt_kwargs self) tr = (Raise e, tr)) ∧
  (∃ e, sample_relative skopt_ask self study trial search_space tr = (Raise e, tr)).
Proof.
  intros Hname Hle.
  pose proof (py_max_clamped low high (float_leb_not_ltb low high Hle)) as Hmax.
  split; [done|].
  destruct (Optimizer_init_raises search_space (_skopt_kwargs self) tr name _ Hname)
    as [e He].
  { rewrite dimension_of_continuous, Hmax.
    by rewrite space_Real_refused by (by apply (float_leb_refl_of_leb low high)). }
  split; [by exists e|].
  destruct (sample_relative_cases skopt_ask self study trial search_space tr)
    as [[-> _]|[_ [(e' & _ & He')|(dims & Hdims & _)]]].
  - by rewrite lookup_empty in Hname.
  - by exists e'.
  - destruct (Optimizer_init_cases search_space (_skopt_kwargs self) tr)
      as [(e' & l1 & it & l2 & _ & Hl & _ & Hit)|(dims' & _ & Hok)]; [|congruence].
    exfalso. assert (it ∈ sorted (items search_space)) as [i Hi]%list_elem_of_lookup.
    { rewrite Hl. apply elem_of_app. right. by left. }
    destruct (Forall2_lookup_l _ _ _ _ _ Hdims Hi) as (dim & _ & Hdim). congruence.
Qed.

(** ** The further properties at work on the examples *)

Lemma Optimizer_init_returns_example :
  all_supported example.search_space = true ∧
  nonzero_steps example.search_space = true ∧
  ∃ dimensions,
    [skopt.Optimizer
       [space.Categorical [PyStr "a"; PyStr "b"];
        space.Integer (PyInt 0) (PyFloat 5);
        space.Real 0 (py_max 0 (nextafter_neg_inf 10)) "uniform"] ∅]
    = [] ++ [skopt.Optimizer dimensions ∅] ∧
    length dimensions = size example.search_space.
Proof.
  assert (@Optimizer_init skopt_space dict_order example.search_space ∅ [] =
          (Ok example.optimizer,
           [skopt.Optimizer
              [space.Categorical [PyStr "a"; PyStr "b"];
               space.Integer (PyInt 0) (PyFloat 5);
               space.Real 0 (py_max 0 (nextafter_neg_inf 10)) "uniform"] ∅]))
    as Hinit by (vm_compute; reflexivity).
  destruct (Optimizer_init_returns _ _ _ _ _ Hinit) as (Hs & Hq & _ & _ & Hdims).
  split; [exact Hs|]. split; [exact Hq|exact Hdims].
Defined.

Lemma sample_relative_unsupported_example :
  ∃ e, @sample_relative optuna_distributions skopt_space dict_order example.skopt_ask
         {| _skopt_kwargs := ∅; _warn_independent_sampling := true |}
         example.study example.trial2 example.unsupported_space [] = (Raise e, []).
Proof.
  exact (@sample_relative_unsupported optuna_distributions skopt_space dict_order
    example.skopt_ask
    {| _skopt_kwargs := ∅; _warn_independent_sampling := true |}
    example.study example.trial2 example.unsupported_space [] "u" "NormalDistribution"
    ltac:(vm_compute; reflexivity)).
Defined.

Lemma sample_relative_drops_dimensions_kwarg_example :
  let kwargs : gmap string pyvalue :=
    <["dimensions" := PyNone]> (<["n_initial_points" := PyInt 1]> ∅) in
  ∃ kw,
    (@sample_relative optuna_distributions skopt_space dict_order example.skopt_ask
       (SkoptSampler_init true (Some kwargs)) example.study example.trial2
       example.search_space []).2 !! 0%nat
    = Some (skopt.Optimizer
              [space.Categorical [PyStr "a"; PyStr "b"];
               space.Integer (PyInt 0) (PyFloat 5);
               space.Real 0 (py_max 0 (nextafter_neg_inf 10)) "uniform"] kw) ∧
    kw !! "dimensions" = None ∧
    kw !! "n_initial_points" = Some (PyInt 1).
Proof.
  intros kwargs. exists (<["n_initial_points" := PyInt 1]> ∅).
  split; [vm_compute; reflexivity|].
  assert (Hrun :
    @sample_relative optuna_distributions skopt_space dict_order example.skopt_ask
      (SkoptSampler_init true (Some kwargs)) example.study example.trial2
      example.search_space [] =
    (Ok (<["x" := PyFloat 2.5]> (<["d" := PyFloat 4]> (<["c" := PyInt 1]> ∅))),
     [] ++ skopt.Optimizer
             [space.Categorical [PyStr "a"; PyStr "b"];
              space.Integer (PyInt 0) (PyFloat 5);
              space.Real 0 (py_max 0 (nextafter_neg_inf 10)) "uniform"]
             (<["n_initial_points" := PyInt 1]> ∅)
           :: [skopt.tell [[PyStr "b"; PyFloat 3; PyFloat 1]] [(-5)%float]; skopt.ask]))
    by (vm_compute; reflexivity).
  destruct (sample_relative_drops_dimensions_kwarg _ _ _ _ _ _ _ _ _ _ _ Hrun)
    as [Hd Hk].
  split; [exact Hd|]. reflexivity.
Defined.


Lemma tell_batch_shape_example :
  ∃ xs ys,
    [skopt.tell [[PyStr "b"; PyFloat 3; PyFloat 1]] [(-5)%float]]
    = [] ++ [skopt.tell xs ys] ∧
    length xs
    = length (@replayed optuna_distributions dict_order example.optimizer example.study) ∧
    length ys
    = length (@replayed optuna_distributions dict_order example.optimizer example.study) ∧
    Forall (λ x, length x = size (_search_space example.optimizer)) xs.
Proof.
  exact (@tell_batch_shape optuna_distributions dict_order example.optimizer
    example.study []
    [skopt.tell [[PyStr "b"; PyFloat 3; PyFloat 1]] [(-5)%float]]
    ltac:(vm_compute; reflexivity)).
Defined.

Lemma tell_raises_when_check_raises_example :
  ∃ e, @tell optuna_distributions dict_order example.optimizer example.stale_study []
       = (Raise e, []).
Proof.
  exact (@tell_raises_when_check_raises optuna_distributions dict_order
    example.optimizer example.stale_study [] example.stale_trial ValueError
    ltac:(by right; left) eq_refl ltac:(vm_compute; reflexivity)).
Defined.

Lemma ask_names_example :
  ∃ params : gmap string pyvalue,
    @ask optuna_distributions dict_order example.skopt_ask example.optimizer [] =
      (Ok params, [skopt.ask]) ∧
    size params = 3%nat ∧ dom params = dom (_search_space example.optimizer).
Proof.
  exists (<["x" := PyFloat 2.5]> (<["d" := PyFloat 4]> (<["c" := PyInt 1]> ∅))).
  assert (Hrun :
    @ask optuna_distributions dict_order example.skopt_ask example.optimizer [] =
    (Ok (<["x" := PyFloat 2.5]> (<["d" := PyFloat 4]> (<["c" := PyInt 1]> ∅))),
     [skopt.ask])) by (vm_compute; reflexivity).
  split; [exact Hrun|].
  destruct (ask_names _ _ _ _ _ Hrun) as (_ & Hsize & Hdom).
  split; [exact Hsize|]. apply Hdom. vm_compute. lia.
Defined.

Lemma nothing_to_sample_relatively_example :
  @infer_relative_search_space optuna_distributions dict_order
    example_more.single_valued
    {| _skopt_kwargs := ∅; _warn_independent_sampling := true |}
    example.study example.trial2 = ∅.
Proof.
  exact (proj1 (@nothing_to_sample_relatively optuna_distributions skopt_space dict_order
    example_more.single_valued example.skopt_ask
    {| _skopt_kwargs := ∅; _warn_independent_sampling := true |}
    example.study example.trial2 [] ltac:(vm_compute; reflexivity))).
Defined.

Lemma is_compatible_subspace_example :
  @_is_compatible optuna_distributions dict_order
    {| _search_space := delete "x" example.search_space |} example.trial0 = Ok true.
Proof.
  exact (@is_compatible_subspace optuna_distributions dict_order example.optimizer
    {| _search_space := delete "x" example.search_space |} example.trial0
    (delete_subseteq example.search_space "x") ltac:(vm_compute; reflexivity)).
Defined.

Lemma outside_parameter_ignored_example :
  @_is_compatible optuna_distributions dict_order example.optimizer
    (with_param example.trial0 "z" (PyStr "extra")) =
  @_is_compatible optuna_distributions dict_order example.optimizer example.trial0.
Proof.
  exact (proj1 (@outside_parameter_ignored optuna_distributions dict_order
    example.optimizer example.study example.trial0 "z" (PyStr "extra")
    ltac:(vm_compute; reflexivity))).
Defined.

Lemma observation_keeps_recorded_values_example :
  ∃ v, params example.trial0 !! "c" = Some v ∧
       [PyStr "b"; PyFloat 3; PyFloat 1] !! 0%nat = Some v.
Proof.
  exact (@observation_keeps_recorded_values dict_order example.optimizer example.study
    example.trial0 [PyStr "b"; PyFloat 3; PyFloat 1] (-5)%float 0%nat "c"
    (CategoricalDistribution [PyStr "a"; PyStr "b"])
    ltac:(vm_compute; reflexivity) ltac:(vm_compute; reflexivity)
    ltac:(vm_compute; reflexivity)).
Defined.

Lemma sample_relative_returns_example :
  ∃ dimensions obs,
    [skopt.Optimizer
       [space.Categorical [PyStr "a"; PyStr "b"];
        space.Integer (PyInt 0) (PyFloat 5);
        space.Real 0 (py_max 0 (nextafter_neg_inf 10)) "uniform"] ∅;
     skopt.tell [[PyStr "b"; PyFloat 3; PyFloat 1]] [(-5)%float];
     skopt.ask]
    = [] ++ [skopt.Optimizer dimensions ∅; skopt.tell obs.*1 obs.*2; skopt.ask] ∧
    length obs
    = length (@replayed optuna_distributions dict_order example.optimizer example.study).
Proof.
  assert (Hrun :
    @sample_relative optuna_distributions skopt_space dict_order example.skopt_ask
      {| _skopt_kwargs := ∅; _warn_independent_sampling := true |}
      example.study example.trial2 example.search_space [] =
    (Ok (<["x" := PyFloat 2.5]> (<["d" := PyFloat 4]> (<["c" := PyInt 1]> ∅))),
     [skopt.Optimizer
        [space.Categorical [PyStr "a"; PyStr "b"];
         space.Integer (PyInt 0) (PyFloat 5);
         space.Real 0 (py_max 0 (nextafter_neg_inf 10)) "uniform"] ∅;
      skopt.tell [[PyStr "b"; PyFloat 3; PyFloat 1]] [(-5)%float];
      skopt.ask])) by (vm_compute; reflexivity).
  assert (example.search_space ≠ ∅) as Hne.
  { intros Heq. apply (f_equal (λ m : gmap string distribution, m !! "x")) in Heq.
    vm_compute in Heq. discriminate. }
  destruct (sample_relative_returns _ _ _ _ _ _ _ _ Hne Hrun)
    as (dims & obs & Htr & _ & Hobs & _).
  exists dims, obs. split; [exact Htr|].
  symmetry. exact (Forall2_length _ _ _ Hobs).
Defined.

Lemma continuous_without_interior_refused_example :
  ∃ e, @sample_relative optuna_distributions skopt_space dict_order example.skopt_ask
         {| _skopt_kwargs := ∅; _warn_independent_sampling := true |}
         example.study example.trial2 example_more.degenerate_space [] = (Raise e, []).
Proof.
  exact (proj2 (proj2 (@continuous_without_interior_refused
    optuna_distributions skopt_space dict_order example.skopt_ask
    {| _skopt_kwargs := ∅; _warn_independent_sampling := true |}
    example.study example.trial2 example_more.degenerate_space [] "y" false 1 1
    ltac:(vm_compute; reflexivity) ltac:(vm_compute; reflexivity)))).
Defined.
